(** * Invoice generator: a shallow embedding of [src/main.py]

    The development follows the layout of the program: the pieces of the
    Python runtime the handlers rely on ([os.path.join], [uuid.uuid4],
    exceptions), the [Invoice] table, the helper functions
    [generate_pdf] and [send_email_simulation], and the routes
    [dashboard], [create_invoice], [download_invoice] and [health_check].

    What lives outside the repository is an input.  The Jinja2 template
    engine, the xhtml2pdf converter, [open], the clock and the random
    source are the fields of the record [Env]: each of them may return or
    raise, and the converter may write any bytes before it does either.
    The rows of the SQLite table, the files of the data directory, the log
    and the session of the client are the fields of the state [St] that
    the handlers thread.

    The table is SQLite's: a new row takes the largest row id plus one,
    and the REAL column [amount] gives a float back as SQLite keeps it
    ([sqlite_real]).

    Two things are taken as reliable: a [db.commit()] always succeeds, and
    so does a write to the session dictionary.  Only instances of
    [Exception] are modelled, which are the ones [except Exception]
    catches. *)

From Stdlib Require Import ZArith String Ascii List Lia Permutation Sorted.
From Stdlib.Strings Require Import Byte.
From Stdlib.Floats Require Import SpecFloat.
From stdpp Require Import base gmap strings list fin_maps pretty.

Open Scope string_scope.
Open Scope list_scope.
Open Scope Z_scope.

(** ** Python runtime *)

Module Py.

(** Exceptions that are instances of [Exception].  [HTTPException] is
    FastAPI's; every other class is kept by name with its message, which
    is what [str(e)] prints. *)
Inductive exn : Type :=
| HTTPException (status_code : Z) (detail : string)
| Exception (cls : string) (msg : string).

Definition str_exn (e : exn) : string :=
  match e with
  | HTTPException c d => pretty c +:+ ": " +:+ d
  | Exception _ m => m
  end.

Definition RuntimeError (msg : string) : exn := Exception "RuntimeError" msg.

(** The outcome of running a statement: a value, or a raised exception. *)
Inductive result (A : Type) : Type :=
| Ok (a : A)
| Raise (e : exn).
Arguments Ok {A} a.
Arguments Raise {A} e.

(** [str(x)] for an optional integer ([None] prints as "None"). *)
Definition str_int (x : option Z) : string :=
  match x with
  | Some n => pretty n
  | None => "None"
  end.

(** [str(x)] for an optional string. *)
Definition str_opt (x : option string) : string :=
  match x with
  | Some s => s
  | None => "None"
  end.

(** Truthiness of an optional string: [None] and [""] are falsy. *)
Definition truthy (x : option string) : bool :=
  match x with
  | Some s => negb (String.eqb s "")
  | None => false
  end.

Definition startswith (s p : string) : bool := String.prefix p s.

Definition endswith (s p : string) : bool :=
  String.prefix (String.rev p) (String.rev s).

(** [os.path.join(a, b)] of posixpath, for two components. *)
Definition os_path_join (a b : string) : string :=
  if startswith b "/" then b
  else if (String.eqb a "" || endswith a "/")%bool then a +:+ b
  else a +:+ "/" +:+ b.

End Py.

Export Py.

(** ** [uuid.uuid4] *)

Module Uuid.

(** The digits of ['%x']. *)
Definition hex_digits : list ascii := list_ascii_of_string "0123456789abcdef".

Definition hex_digit (n : Z) : ascii := nth (Z.to_nat n) hex_digits "f"%char.

(** The [w] low hexadecimal digits of [x], least significant first. *)
Fixpoint hex_le (w : nat) (x : Z) : list ascii :=
  match w with
  | O => []
  | S w' => hex_digit (x mod 16) :: hex_le w' (x / 16)
  end.

(** ['%032x' % x] for [0 <= x < 2^128], as a list of characters. *)
Definition hex32 (x : Z) : list ascii := rev (hex_le 32 x).

(** [UUID.__init__(int=r, version=4)]: the variant bits are forced to
    RFC 4122 and the version nibble to 4. *)
Definition uuid4_int (r : Z) : Z :=
  let i := Z.land r (Z.lnot (Z.shiftl 0xc000 48)) in
  let i := Z.lor i (Z.shiftl 0x8000 48) in
  let i := Z.land i (Z.lnot (Z.shiftl 0xf000 64)) in
  Z.lor i (Z.shiftl 4 76).

(** [UUID.__str__]: the groups hex[:8], hex[8:12], hex[12:16],
    hex[16:20], hex[20:] joined by dashes. *)
Definition dashed (h : list ascii) : list ascii :=
  let dash := "-"%char in
  firstn 8 h ++ dash ::
  firstn 4 (skipn 8 h) ++ dash ::
  firstn 4 (skipn 12 h) ++ dash ::
  firstn 4 (skipn 16 h) ++ dash ::
  skipn 20 h.

Definition str_uuid (i : Z) : string :=
  string_of_list_ascii (dashed (hex32 i)).

(** [str(uuid.uuid4())], where [r] is the integer read from the 16
    bytes of [os.urandom(16)] (big endian), so [0 <= r < 2^128]. *)
Definition uuid4 (r : Z) : string := str_uuid (uuid4_int r).

End Uuid.

(** ** Data model *)

(** Python's [float]; an amount is only stored and handed on, never
    computed with. *)
Definition float : Type := spec_float.

(** What the REAL column [amount] gives back for a float written to it:
    SQLite binds a NaN as NULL and keeps a float without fractional part
    as an integer, so negative zero is read back as 0.0; every other
    value is read back as written. *)
Definition sqlite_real (a : float) : option float :=
  match a with
  | S754_nan => None
  | S754_zero _ => Some (S754_zero false)
  | _ => Some a
  end.

(** A row of the [invoices] table, which is also the ORM object.  [id] is
    [None] until the row is inserted; [amount] and [filename] are nullable
    columns. *)
Record Invoice : Type := mkInvoice {
  id : option Z;
  client_name : string;
  client_email : string;
  description : string;
  amount : option float;
  created_at : Z;
  filename : option string;
  status : string
}.

Definition set_id (i : option Z) (o : Invoice) : Invoice :=
  mkInvoice i (client_name o) (client_email o) (description o) (amount o)
            (created_at o) (filename o) (status o).

Definition set_filename (f : option string) (o : Invoice) : Invoice :=
  mkInvoice (id o) (client_name o) (client_email o) (description o) (amount o)
            (created_at o) f (status o).

Definition set_status (s : string) (o : Invoice) : Invoice :=
  mkInvoice (id o) (client_name o) (client_email o) (description o) (amount o)
            (created_at o) (filename o) s.

Definition set_amount (a : option float) (o : Invoice) : Invoice :=
  mkInvoice (id o) (client_name o) (client_email o) (description o) a
            (created_at o) (filename o) (status o).

Inductive level : Type := INFO | ERROR.

(** What the handlers read and write: the rows of the table in rowid
    order, the files of the data directory by path, the records emitted by
    [logger], and the session of the client that sent the request. *)
Record St : Type := mkSt {
  db : list Invoice;
  fs : gmap string (list byte);
  log : list (level * string);
  session : gmap string string
}.

Definition set_db (d : list Invoice) (s : St) : St :=
  mkSt d (fs s) (log s) (session s).
Definition set_fs (f : gmap string (list byte)) (s : St) : St :=
  mkSt (db s) f (log s) (session s).
Definition set_log (l : list (level * string)) (s : St) : St :=
  mkSt (db s) (fs s) l (session s).
Definition set_session (m : gmap string string) (s : St) : St :=
  mkSt (db s) (fs s) (log s) m.

Inductive Response : Type :=
| TemplateResponse (name : string) (invoices : list Invoice)
                   (flash_message : option string)
| RedirectResponse (url : string) (status_code : Z)
| FileResponse (path : string) (media_type : string) (download_name : string)
| JSONResponse (body : list (string * string)).

(** ** Statements that may raise, over a state [S] *)

Definition M (S A : Type) : Type := S -> result A * S.

Definition ret {S A} (a : A) : M S A := fun s => (Ok a, s).

Definition bind {S A B} (m : M S A) (k : A -> M S B) : M S B :=
  fun s =>
    match m s with
    | (Ok a, s') => k a s'
    | (Raise e, s') => (Raise e, s')
    end.

Definition raise {S A} (e : exn) : M S A := fun s => (Raise e, s).

(** [try: body / except Exception as e: handler e]. *)
Definition try_except {S A} (body : M S A) (handler : exn -> M S A) : M S A :=
  fun s =>
    match body s with
    | (Ok a, s') => (Ok a, s')
    | (Raise e, s') => handler e s'
    end.

Definition get {S} : M S S := fun s => (Ok s, s).
Definition modify {S} (f : S -> S) : M S unit := fun s => (Ok tt, f s).

(** The value of an expression that may raise. *)
Definition eval {S A} (r : result A) : M S A := fun s => (r, s).

Declare Scope py_scope.
Delimit Scope py_scope with py.
Notation "x <- m ;; k" := (bind m (fun x => k))
  (at level 90, m at level 80, right associativity) : py_scope.
Notation "m ;;; k" := (bind m (fun _ => k))
  (at level 90, right associativity) : py_scope.

(** A handler body runs over the shared state and its own local
    variable, the ORM object [new_invoice]. *)
Definition Frame : Type := (St * Invoice)%type.

Definition global {A} (m : M St A) : M Frame A :=
  fun '(s, o) => let '(r, s') := m s in (r, (s', o)).

Definition local : M Frame Invoice := fun '(s, o) => (Ok o, (s, o)).

Definition assign (f : Invoice -> Invoice) : M Frame unit :=
  fun '(s, o) => (Ok tt, (s, f o)).

(** ** Logging *)

(** The records [logger] has emitted. *)
Definition Log : Type := list (level * string).

Definition logger_info (msg : string) : M Log unit :=
  modify (fun l => l ++ [(INFO, msg)]).

Definition logger_error (msg : string) : M Log unit :=
  modify (fun l => l ++ [(ERROR, msg)]).

(** A statement that only logs, run on the log of the state. *)
Definition logging {A} (m : M Log A) : M St A :=
  fun s => let '(r, l) := m (log s) in (r, set_log l s).

(** ** External collaborators *)

(** A compiled Jinja2 template: [template.render(invoice=...)]. *)
Definition Template : Type := Invoice -> result string.

(** What [pisa.CreatePDF(html, dest=f)] does: the bytes it writes to [f],
    and either the status object's [err] count or a raised exception. *)
Record pisa_out : Type := mkPisa {
  written : list byte;
  pisa_status : result Z
}.

(** Everything one request reads from outside the repository.  [urandom]
    is the 16 bytes [uuid.uuid4] draws, as an integer in [0, 2^128); [now]
    is [datetime.now()] in microseconds; [open_wb path] is the [OSError] of
    [open(path, "wb")], if any. *)
Record Env : Type := mkEnv {
  urandom : Z;
  now : Z;
  get_template : string -> result Template;
  open_wb : string -> option exn;
  CreatePDF : string -> pisa_out
}.

(** ** Configuration *)

Definition DATA_DIR : string := "data".

(** ** The [invoices] table through the ORM session *)

(** SQLite gives a new row the largest rowid plus one (1 in an empty
    table). *)
Definition max_rowid (rows : list Invoice) : Z :=
  foldr (fun r m => Z.max (default 0 (id r)) m) 0 rows.

Definition next_rowid (rows : list Invoice) : Z := max_rowid rows + 1.

Definition has_id (i : Z) (r : Invoice) : bool := bool_decide (id r = Some i).

(** [db.add(new_invoice)]: the object becomes pending; nothing is written
    before the commit. *)
Definition db_add : M Frame unit := ret tt.

(** The attributes of an object as the INSERT stores them. *)
Definition stored (o : Invoice) : Invoice :=
  set_amount (match amount o with
              | Some a => sqlite_real a
              | None => None
              end) o.

(** [db.commit()]: flushes the tracked object, as an INSERT when it has no
    identity yet and as an UPDATE of its row otherwise.  The commit
    expires the object, whose attributes are then those of its row.  The
    UPDATEs of this program assign [filename] and [status] only, on an
    object that carries its row's amount. *)
Definition db_commit : M Frame unit :=
  fun '(s, o) =>
    match id o with
    | None =>
        let o' := set_id (Some (next_rowid (db s))) (stored o) in
        (Ok tt, (set_db (db s ++ [o']) s, o'))
    | Some i =>
        (Ok tt, (set_db (map (fun r => if has_id i r then o else r) (db s)) s, o))
    end.

(** [db.query(Invoice).filter(Invoice.id == i).first()]. *)
Definition query_first (rows : list Invoice) (i : Z) : option Invoice :=
  List.find (has_id i) rows.

(** [db.refresh(new_invoice)]: the attributes are read back from the row. *)
Definition db_refresh : M Frame unit :=
  fun '(s, o) =>
    match id o with
    | Some i => (Ok tt, (s, default o (query_first (db s) i)))
    | None => (Ok tt, (s, o))
    end.

(** [ORDER BY created_at DESC]: rows are taken in rowid order and each is
    placed before the first row that is not newer than it, so rows with
    equal timestamps stay in rowid order. *)
Fixpoint place_desc (x : Invoice) (l : list Invoice) : list Invoice :=
  match l with
  | [] => [x]
  | y :: l' =>
      if (created_at y <=? created_at x)%Z then x :: y :: l'
      else y :: place_desc x l'
  end.

Definition order_by_created_at_desc (rows : list Invoice) : list Invoice :=
  foldr place_desc [] rows.

(** ** The session dictionary *)

(** [request.session[k] = v]. *)
Definition session_set (k v : string) : M St unit :=
  modify (fun s => set_session (<[k := v]> (session s)) s).

(** [request.session.pop(k, None)]. *)
Definition session_pop (k : string) : M St (option string) :=
  fun s => (Ok (session s !! k), set_session (delete k (session s)) s).

(** ** Helper functions *)

(** [with open(path, "wb") as f: st = pisa.CreatePDF(html, dest=f)].  The
    file exists, empty, as soon as [open] returns; the converter's bytes
    are in it when the block is left, normally or by an exception. *)
Definition open_and_convert (env : Env) (file_path html : string) : M St Z :=
  fun s =>
    match open_wb env file_path with
    | Some e => (Raise e, s)
    | None =>
        let s1 := set_fs (<[file_path := []]> (fs s)) s in
        let out := CreatePDF env html in
        (pisa_status out, set_fs (<[file_path := written out]> (fs s1)) s1)
    end.

Definition generate_pdf (env : Env) (invoice_data : Invoice)
    (template_name : string) : M St string :=
  (let pdf_filename := Uuid.uuid4 (urandom env) +:+ ".pdf" in
   let file_path := os_path_join DATA_DIR pdf_filename in
   template <- eval (get_template env template_name) ;;
   html_content <- eval (template invoice_data) ;;
   err <- open_and_convert env file_path html_content ;;
   if negb (err =? 0)%Z then
     logging (logger_error ("PDF generation failed for invoice "
                            +:+ str_int (id invoice_data))) ;;;
     raise (RuntimeError "PDF generation failed")
   else ret pdf_filename)%py.

Definition send_email_simulation (invoice : Invoice) : M Log unit :=
  (logger_info "--- EMAIL SIMULATION ---" ;;;
   logger_info ("To: " +:+ client_email invoice) ;;;
   logger_info ("Subject: Invoice #" +:+ str_int (id invoice)
                +:+ " from My Company Inc.") ;;;
   logger_info ("Body: Hello " +:+ client_name invoice
                +:+ ", please find your invoice attached.") ;;;
   logger_info ("Attachment: " +:+ str_opt (filename invoice)) ;;;
   logger_info "--- END EMAIL SIMULATION ---")%py.

(** ** Routes *)

(** [GET /].  The response is the context handed to the template. *)
Definition dashboard : M St Response :=
  (s <- get ;;
   let invoices := order_by_created_at_desc (db s) in
   flash_message <- session_pop "flash_message" ;;
   ret (TemplateResponse "dashboard.html" invoices flash_message))%py.

Definition run_frame {A} (o : Invoice) (m : M Frame A) : M St A :=
  fun s => let '(r, (s', _)) := m (s, o) in (r, s').

(** [POST /create], with the notify step as a parameter: the route of the
    source is [create_invoice] below.  A notify step works on the invoice
    and the log, as [send_email_simulation] does. *)
Definition create_invoice_with (notify : Invoice -> M Log unit) (env : Env)
    (client_name client_email description : string) (amount : float)
    : M St Response :=
  (let new_invoice :=
     mkInvoice None client_name client_email description (Some amount)
               (now env) None "Processing" in
   run_frame new_invoice (
     db_add ;;;
     db_commit ;;;
     db_refresh ;;;
     try_except (
       o <- local ;;
       pdf_filename <- global (generate_pdf env o "invoice.html") ;;
       assign (set_filename (Some pdf_filename)) ;;;
       assign (set_status "Sent") ;;;
       db_commit ;;;
       o <- local ;;
       global (logging (notify o)) ;;;
       global (session_set "flash_message"
                 ("Invoice successfully created and sent to " +:+ client_email)))
     (fun e =>
       global (logging (logger_error
                          ("Error processing invoice: " +:+ str_exn e))) ;;;
       assign (set_status "Error") ;;;
       db_commit ;;;
       global (session_set "flash_message"
                 "Error generating invoice. Please check logs.")) ;;;
     ret (RedirectResponse "/" 303)))%py.

Definition create_invoice : Env -> string -> string -> string -> float
                            -> M St Response :=
  create_invoice_with send_email_simulation.

(** [GET /download/{invoice_id}]. *)
Definition download_invoice (invoice_id : Z) : M St Response :=
  (s <- get ;;
   match query_first (db s) invoice_id with
   | None => raise (HTTPException 404 "Invoice not found")
   | Some invoice =>
       if negb (truthy (filename invoice)) then
         raise (HTTPException 404 "Invoice not found")
       else
         let file_path := os_path_join DATA_DIR (str_opt (filename invoice)) in
         if bool_decide (is_Some (fs s !! file_path)) then
           ret (FileResponse file_path "application/pdf"
                  ("Invoice_" +:+ pretty invoice_id +:+ ".pdf"))
         else raise (HTTPException 404 "PDF file missing")
   end)%py.

(** The bytes a [FileResponse] streams: the file at its path. *)
Definition response_body (s : St) (r : Response) : option (list byte) :=
  match r with
  | FileResponse path _ _ => fs s !! path
  | _ => None
  end.

(** [GET /health]. *)
Definition health_check : M St Response :=
  ret (JSONResponse [("status", "ok")]).

(** ** Notions used by the statements *)

(** The row [create_invoice] inserts: what [new_invoice] is after
    [db.add], [db.commit] and [db.refresh]. *)
Definition new_row (env : Env) (client_name client_email description : string)
    (amount : float) (s : St) : Invoice :=
  mkInvoice (Some (next_rowid (db s))) client_name client_email description
            (sqlite_real amount) (now env) None "Processing".

(** The handle [generate_pdf] draws and the path it opens. *)
Definition pdf_handle (env : Env) : string :=
  Uuid.uuid4 (urandom env) +:+ ".pdf".

Definition handle_path (env : Env) : string :=
  os_path_join DATA_DIR (pdf_handle env).

(** The "Render HTML" step of [generate_pdf]: template lookup, then
    rendering. *)
Definition render_html (env : Env) (invoice_data : Invoice)
    (template_name : string) : result string :=
  match get_template env template_name with
  | Ok template => template invoice_data
  | Raise e => Raise e
  end.

(** The state in which the [try] block starts: the row is inserted. *)
Definition inserted (env : Env) (cn ce d : string) (a : float) (s : St) : St :=
  set_db (db s ++ [new_row env cn ce d a s]) s.

(** Where the [except] handler leaves the state, from the object [o] and
    the state [s2] in which the exception was raised. *)
Definition handled (rows : list Invoice) (e : exn) (o : Invoice) (s2 : St) : St :=
  mkSt (rows ++ [set_status "Error" o]) (fs s2)
       (log s2 ++ [(ERROR, "Error processing invoice: " +:+ str_exn e)])
       (<["flash_message" := "Error generating invoice. Please check logs."]>
          (session s2)).

(** [x] occurs in [l] at an earlier position than [y]. *)
Definition before {A : Type} (x y : A) (l : list A) : Prop :=
  exists l1 l2 l3, l = l1 ++ x :: l2 ++ y :: l3.

(** [x] is at least as recent as [y]: the order of the listing. *)
Definition not_older (x y : Invoice) : Prop := created_at y <= created_at x.

(** The artifact reference is set exactly when the status is "Sent". *)
Definition artifact_invariant (r : Invoice) : Prop :=
  truthy (filename r) = true <-> status r = "Sent".

(** The states the routes can reach from an empty table. *)
Inductive reachable : St -> Prop :=
| reach_empty f l m : reachable (mkSt [] f l m)
| reach_create env cn ce d a s :
    reachable s -> reachable (snd (create_invoice env cn ce d a s))
| reach_dashboard s :
    reachable s -> reachable (snd (dashboard s))
| reach_download i s :
    reachable s -> reachable (snd (download_invoice i s)).

(** The PDF magic header, the bytes of "%PDF". *)
Definition has_pdf_magic (b : list byte) : bool :=
  match b with
  | b0 :: b1 :: b2 :: b3 :: _ =>
      Byte.eqb b0 x25 && Byte.eqb b1 x50 && Byte.eqb b2 x44 && Byte.eqb b3 x46
  | _ => false
  end.

(** The 122 bits of the draw that [uuid4] keeps, and the six it forces. *)
Definition kept_bits : Z :=
  Z.land (Z.lnot (Z.shiftl 0xc000 48))
         (Z.land (Z.lnot (Z.shiftl 0xf000 64)) (Z.ones 128)).

Definition forced_bits : Z := Z.lor (Z.shiftl 0x8000 48) (Z.shiftl 4 76).

(** The position of a character in a list (its length when absent). *)
Fixpoint index_of (c : ascii) (l : list ascii) : nat :=
  match l with
  | [] => O
  | d :: l' => if Ascii.eqb c d then O else S (index_of c l')
  end.

(** The value of a hexadecimal digit. *)
Definition hex_value (c : ascii) : Z := Z.of_nat (index_of c Uuid.hex_digits).

(** The 32 digits of a dashed identifier. *)
Definition undashed (u : list ascii) : list ascii :=
  firstn 8 u ++ firstn 4 (skipn 9 u) ++ firstn 4 (skipn 14 u)
  ++ firstn 4 (skipn 19 u) ++ skipn 24 u.

(** ** Sample requests *)

Definition sample_template : Template :=
  fun inv => Ok ("<h1>Invoice for " +:+ client_name inv +:+ "</h1>").

(** The bytes of "%PDF-". *)
Definition sample_pdf : list byte := [x25; x50; x44; x46; x2d].

(** A request on which every collaborator succeeds. *)
Definition env_ok : Env :=
  mkEnv 5 1000 (fun _ => Ok sample_template) (fun _ => None)
        (fun _ => mkPisa sample_pdf (Ok 0)).

(** A later request, with another draw. *)
Definition env_later : Env :=
  mkEnv 6 2000 (fun _ => Ok sample_template) (fun _ => None)
        (fun _ => mkPisa sample_pdf (Ok 0)).

(** A request served at the same instant as [env_ok], with another draw. *)
Definition env_same_instant : Env :=
  mkEnv 6 1000 (fun _ => Ok sample_template) (fun _ => None)
        (fun _ => mkPisa sample_pdf (Ok 0)).

(** A later request whose draw differs from that of [env_ok] in a bit that
    [uuid4] overwrites. *)
Definition env_colliding : Env :=
  mkEnv (5 + 2 ^ 62) 2000 (fun _ => Ok sample_template) (fun _ => None)
        (fun _ => mkPisa sample_pdf (Ok 0)).

(** A request whose conversion reports an error after writing two bytes. *)
Definition env_convert_err : Env :=
  mkEnv 5 1000 (fun _ => Ok sample_template) (fun _ => None)
        (fun _ => mkPisa [x25; x50] (Ok 1)).

(** A request whose template is missing. *)
Definition env_no_template : Env :=
  mkEnv 5 1000 (fun n => Raise (Exception "TemplateNotFound" n))
        (fun _ => None) (fun _ => mkPisa sample_pdf (Ok 0)).

Definition st0 : St := mkSt [] ∅ [] ∅.

(** 125.50 *)
Definition amount_125_50 : float := S754_finite false 251 (-1).

(** -3.0 *)
Definition amount_neg : float := S754_finite true 3 0.

(** NaN and negative zero. *)
Definition amount_nan : float := S754_nan.
Definition amount_neg_zero : float := S754_zero true.

(** A request whose template formats the amount with two decimals, which
    raises a [TypeError] when the amount is [None]. *)
Definition env_formats_amount : Env :=
  mkEnv 5 1000
        (fun _ => Ok (fun inv =>
           match amount inv with
           | Some _ => Ok ("<h1>Invoice for " +:+ client_name inv +:+ "</h1>")
           | None => Raise (Exception "TypeError"
                              "must be real number, not NoneType")
           end))
        (fun _ => None) (fun _ => mkPisa sample_pdf (Ok 0)).

(** A notify step that raises. *)
Definition failing_notifier : Invoice -> M Log unit :=
  fun _ => raise (Exception "SMTPException" "connection refused").

(** ** Statements of the specification that fail as worded *)

(** A failed creation ends in "Error" with no artifact reference, and no
    file is visible under the generated handle. *)
Definition no_artifact_after_failure (env : Env) (cn ce d : string)
    (a : float) (s : St) : Prop :=
  (exists e, fst (generate_pdf env (new_row env cn ce d a s) "invoice.html"
                               (inserted env cn ce d a s)) = Raise e) ->
  let s' := snd (create_invoice env cn ce d a s) in
  (exists r, query_first (db s') (next_rowid (db s)) = Some r /\
             status r = "Error" /\ filename r = None) /\
  fs s' !! handle_path env = None.

(** For invoices A and B created in this order, B is listed before A. *)
Definition later_listed_first (envA envB : Env) (cn ce d : string)
    (a : float) (s : St) : Prop :=
  let sA := snd (create_invoice envA cn ce d a s) in
  let sB := snd (create_invoice envB cn ce d a sA) in
  forall rA rB,
    query_first (db sB) (next_rowid (db s)) = Some rA ->
    query_first (db sB) (next_rowid (db sA)) = Some rB ->
    before rB rA (order_by_created_at_desc (db sB)).

(** Once the record is committed as "Sent", a failure of the notify step
    leaves it "Sent" with its artifact reference. *)
Definition notify_failure_keeps_sent (notify : Invoice -> M Log unit)
    (env : Env) (cn ce d : string) (a : float) (s : St) : Prop :=
  forall f s2 e l,
    generate_pdf env (new_row env cn ce d a s) "invoice.html"
                 (inserted env cn ce d a s) = (Ok f, s2) ->
    notify (set_status "Sent" (set_filename (Some f) (new_row env cn ce d a s)))
           (log s2) = (Raise e, l) ->
    exists r,
      query_first (db (snd (create_invoice_with notify env cn ce d a s)))
                  (next_rowid (db s)) = Some r /\
      status r = "Sent" /\ truthy (filename r) = true.

(** Two saves yield two different handles. *)
Definition distinct_saves_distinct_handles (envA envB : Env) (cn ce d : string)
    (a : float) (s : St) : Prop :=
  let sA := snd (create_invoice envA cn ce d a s) in
  let sB := snd (create_invoice envB cn ce d a sA) in
  forall rA rB fA fB,
    query_first (db sB) (next_rowid (db s)) = Some rA ->
    query_first (db sB) (next_rowid (db sA)) = Some rB ->
    filename rA = Some fA -> filename rB = Some fB -> fA <> fB.

(** The record is persisted with the amount exactly as submitted. *)
Definition amount_persisted_as_submitted (env : Env) (cn ce d : string)
    (a : float) (s : St) : Prop :=
  exists r,
    query_first (db (snd (create_invoice env cn ce d a s)))
                (next_rowid (db s)) = Some r /\
    amount r = Some a.

(** The lifecycle of a submission with the amount [a] proceeds as that of
    a submission with the amount [a_pos]: same response, same final
    status and artifact reference, same files, log and session. *)
Definition proceeds_as_for (env : Env) (cn ce d : string) (a a_pos : float)
    (s : St) : Prop :=
  let s1 := snd (create_invoice env cn ce d a s) in
  let s2 := snd (create_invoice env cn ce d a_pos s) in
  fst (create_invoice env cn ce d a s)
  = fst (create_invoice env cn ce d a_pos s) /\
  (forall r1 r2,
     query_first (db s1) (next_rowid (db s)) = Some r1 ->
     query_first (db s2) (next_rowid (db s)) = Some r2 ->
     status r1 = status r2 /\ filename r1 = filename r2) /\
  fs s1 = fs s2 /\ log s1 = log s2 /\ session s1 = session s2.

(** ** Requests *)

(** The routing table: the requests the application serves. *)
Inductive request : Type :=
| GetDashboard
| PostCreate (env : Env) (client_name client_email description : string)
             (amount : float)
| GetDownload (invoice_id : Z)
| GetHealth.

Definition serve (q : request) : M St Response :=
  match q with
  | GetDashboard => dashboard
  | PostCreate env cn ce d a => create_invoice env cn ce d a
  | GetDownload i => download_invoice i
  | GetHealth => health_check
  end.

(** The state after a sequence of requests, served one after the other. *)
Definition serve_all (qs : list request) (s : St) : St :=
  foldl (fun s q => snd (serve q s)) s qs.

(** The requests sent with GET. *)
Definition is_get (q : request) : bool :=
  match q with
  | PostCreate _ _ _ _ _ => false
  | _ => true
  end.

(** A record as a completed creation leaves it: "Sent" with a handle
    drawn by [uuid4], or "Error" without a reference. *)
Definition settled (r : Invoice) : Prop :=
  (status r = "Sent" /\
   exists draw, filename r = Some (Uuid.uuid4 draw +:+ ".pdf")) \/
  (status r = "Error" /\ filename r = None).

(** The rowids of a table are 1, 2, ..., in this order. *)
Definition ids_dense (rows : list Invoice) : Prop :=
  map id rows = map (fun k => Some (Z.of_nat k)) (seq 1 (length rows)).

(** The six records of a simulated email. *)
Definition email_records (ce : string) (n : Z) (cn : string) (f : string)
    : Log :=
  [(INFO, "--- EMAIL SIMULATION ---");
   (INFO, "To: " +:+ ce);
   (INFO, "Subject: Invoice #" +:+ pretty n +:+ " from My Company Inc.");
   (INFO, "Body: Hello " +:+ cn +:+ ", please find your invoice attached.");
   (INFO, "Attachment: " +:+ f);
   (INFO, "--- END EMAIL SIMULATION ---")].

(** A later request whose draw collides with that of [env_ok] and whose
    conversion reports an error after writing two bytes. *)
Definition env_colliding_err : Env :=
  mkEnv (5 + 2 ^ 62) 2000 (fun _ => Ok sample_template) (fun _ => None)
        (fun _ => mkPisa [x25; x50] (Ok 1)).

(** The state after the Acme invoice was created. *)
Definition st_acme : St :=
  snd (create_invoice env_ok "Acme" "billing@acme.test" "Consulting"
                      amount_125_50 st0).

(** A request that does not open the path [p]: every request but a
    creation whose handle leads to [p]. *)
Definition avoids (p : string) (q : request) : bool :=
  match q with
  | PostCreate env _ _ _ _ => bool_decide (handle_path env <> p)
  | _ => true
  end.

(** A table with one record whose file name is an absolute path, as a
    write to the database from outside the application could leave it. *)
Definition st_foreign : St :=
  mkSt [mkInvoice (Some 1) "Acme" "billing@acme.test" "Consulting"
                  (Some amount_125_50) 1000 (Some "/etc/passwd") "Sent"]
       (<["/etc/passwd" := [x25]]> ∅) [] ∅.

(** * Properties *)

(** ** The model on concrete inputs *)

Example uuid4_of_zero :
  Uuid.uuid4 0 = "00000000-0000-4000-8000-000000000000".
Proof. reflexivity. Qed.

Example uuid4_of_ones :
  Uuid.uuid4 (2 ^ 128 - 1) = "ffffffff-ffff-4fff-bfff-ffffffffffff".
Proof. vm_compute. reflexivity. Qed.

Example os_path_join_data :
  os_path_join DATA_DIR "a.pdf" = "data/a.pdf"
  /\ os_path_join DATA_DIR "/etc/passwd" = "/etc/passwd"
  /\ os_path_join "data/" "a.pdf" = "data/a.pdf".
Proof. repeat split. Qed.

Example create_acme :
  create_invoice env_ok "Acme" "billing@acme.test" "Consulting" amount_125_50 st0
  = (Ok (RedirectResponse "/" 303),
     mkSt [mkInvoice (Some 1) "Acme" "billing@acme.test" "Consulting"
                     (Some amount_125_50) 1000
                     (Some "00000000-0000-4000-8000-000000000005.pdf") "Sent"]
          (<["data/00000000-0000-4000-8000-000000000005.pdf" := sample_pdf]> ∅)
          [(INFO, "--- EMAIL SIMULATION ---");
           (INFO, "To: billing@acme.test");
           (INFO, "Subject: Invoice #1 from My Company Inc.");
           (INFO, "Body: Hello Acme, please find your invoice attached.");
           (INFO, "Attachment: 00000000-0000-4000-8000-000000000005.pdf");
           (INFO, "--- END EMAIL SIMULATION ---")]
          (<["flash_message" :=
               "Invoice successfully created and sent to billing@acme.test"]> ∅)).
Proof. vm_compute. reflexivity. Qed.

Example create_without_template :
  create_invoice env_no_template "Acme" "billing@acme.test" "Consulting"
                 amount_neg st0
  = (Ok (RedirectResponse "/" 303),
     mkSt [mkInvoice (Some 1) "Acme" "billing@acme.test" "Consulting"
                     (Some amount_neg) 1000 None "Error"]
          ∅
          [(ERROR, "Error processing invoice: invoice.html")]
          (<["flash_message" :=
               "Error generating invoice. Please check logs."]> ∅)).
Proof. vm_compute. reflexivity. Qed.

Example health_ok (s : St) :
  health_check s = (Ok (JSONResponse [("status", "ok")]), s).
Proof. reflexivity. Qed.



(** ** The table *)

Lemma max_rowid_ge (rows : list Invoice) (r : Invoice) (i : Z) :
  In r rows -> id r = Some i -> i <= max_rowid rows.
Proof.
  induction rows as [|r0 rows IH]; simpl; [tauto|].
  intros [->|Hin] Hid.
  - rewrite Hid. simpl. lia.
  - specialize (IH Hin Hid). lia.
Qed.

Lemma max_rowid_nonneg (rows : list Invoice) : 0 <= max_rowid rows.
Proof. induction rows; simpl; lia. Qed.

Lemma has_id_true (i : Z) (r : Invoice) : has_id i r = true <-> id r = Some i.
Proof. unfold has_id. apply bool_decide_eq_true. Qed.

Lemma has_id_fresh (rows : list Invoice) (i : Z) :
  max_rowid rows < i -> Forall (fun r => has_id i r = false) rows.
Proof.
  intros Hlt. apply List.Forall_forall. intros r Hin.
  destruct (has_id i r) eqn:E; [|reflexivity].
  apply has_id_true in E. pose proof (max_rowid_ge _ _ _ Hin E). lia.
Qed.

Lemma query_first_app_new (rows : list Invoice) (o : Invoice) (i : Z) :
  max_rowid rows < i -> id o = Some i ->
  query_first (rows ++ [o]) i = Some o.
Proof.
  intros Hlt Hid. pose proof (has_id_fresh _ _ Hlt) as Hf. clear Hlt.
  unfold query_first. induction Hf as [|r rows Hr _ IH]; cbn [app find].
  - apply has_id_true in Hid. now rewrite Hid.
  - now rewrite Hr.
Qed.

Lemma query_first_app_old (rows : list Invoice) (o : Invoice) (i : Z) :
  id o <> Some i ->
  query_first (rows ++ [o]) i = query_first rows i.
Proof.
  intros Hid. unfold query_first. induction rows as [|r rows IH]; cbn [app find].
  - destruct (has_id i o) eqn:E; [|reflexivity].
    apply has_id_true in E. contradiction.
  - now destruct (has_id i r).
Qed.

Lemma update_last (rows : list Invoice) (o o' : Invoice) (i : Z) :
  max_rowid rows < i -> id o = Some i ->
  map (fun r => if has_id i r then o' else r) (rows ++ [o]) = rows ++ [o'].
Proof.
  intros Hlt Hid. pose proof (has_id_fresh _ _ Hlt) as Hf. clear Hlt.
  induction Hf as [|r rows Hr _ IH]; cbn [app map].
  - apply has_id_true in Hid. now rewrite Hid.
  - rewrite Hr. f_equal. apply IH.
Qed.

Lemma next_rowid_fresh (rows : list Invoice) : max_rowid rows < next_rowid rows.
Proof. unfold next_rowid. lia. Qed.

(** ** [generate_pdf] *)

(** The result of [generate_pdf] and what it leaves behind, case by case. *)
Lemma generate_pdf_cases (env : Env) (inv : Invoice) (tn : string) (s : St) :
  (exists e, render_html env inv tn = Raise e /\
             generate_pdf env inv tn s = (Raise e, s)) \/
  (exists html e, render_html env inv tn = Ok html /\
             open_wb env (handle_path env) = Some e /\
             generate_pdf env inv tn s = (Raise e, s)) \/
  (exists html, render_html env inv tn = Ok html /\
     open_wb env (handle_path env) = None /\
     let s2 := set_fs (<[handle_path env := written (CreatePDF env html)]> (fs s)) s in
     ((exists e, pisa_status (CreatePDF env html) = Raise e /\
                 generate_pdf env inv tn s = (Raise e, s2)) \/
      (exists err, pisa_status (CreatePDF env html) = Ok err /\ err <> 0 /\
                 generate_pdf env inv tn s =
                   (Raise (RuntimeError "PDF generation failed"),
                    set_log (log s2 ++ [(ERROR, "PDF generation failed for invoice "
                                                 +:+ str_int (id inv))]) s2)) \/
      (pisa_status (CreatePDF env html) = Ok 0 /\
       generate_pdf env inv tn s = (Ok (pdf_handle env), s2)))).
Proof.
  unfold generate_pdf, render_html, bind, eval, open_and_convert, logging,
    logger_error, modify, raise, ret.
  fold (pdf_handle env). fold (handle_path env).
  destruct (get_template env tn) as [t|e]; [|left; eauto].
  destruct (t inv) as [html|e]; [|left; eauto].
  right. destruct (open_wb env (handle_path env)) as [e|]; [left; eauto|].
  right. exists html. repeat split.
  cbn [fs set_fs db log session]. rewrite insert_insert_eq.
  destruct (pisa_status (CreatePDF env html)) as [err|e]; [|left; eauto].
  right. destruct (Z.eqb_spec err 0) as [->|Hne]; cbn [negb].
  - right. split; reflexivity.
  - left. exists err. repeat split; assumption.
Qed.

Lemma generate_pdf_frame (env : Env) (inv : Invoice) (tn : string) (s s2 : St)
    (r : result string) :
  generate_pdf env inv tn s = (r, s2) -> db s2 = db s /\ session s2 = session s.
Proof.
  intros H.
  destruct (generate_pdf_cases env inv tn s)
    as [(e & _ & E)|[(h & e & _ & _ & E)|(h & _ & _ & [(e & _ & E)|[(x & _ & _ & E)|(_ & E)]])]];
    rewrite E in H; pose proof (f_equal snd H) as Hs; cbn [snd] in Hs;
    subst s2; split; reflexivity.
Qed.

(** The result of [generate_pdf] is decided by the environment and the
    invoice alone. *)
Lemma generate_pdf_result_indep (env : Env) (inv : Invoice) (tn : string)
    (s s' : St) :
  fst (generate_pdf env inv tn s) = fst (generate_pdf env inv tn s').
Proof.
  destruct (generate_pdf_cases env inv tn s)
    as [(e & R & E)|[(h & e & R & O & E)|(h & R & O & [(e & P & E)|[(x & P & Hx & E)|(P & E)]])]];
  destruct (generate_pdf_cases env inv tn s')
    as [(e' & R' & E')|[(h' & e' & R' & O' & E')|(h' & R' & O' & [(e' & P' & E')|[(x' & P' & Hx' & E')|(P' & E')]])]];
  rewrite E, E'; cbn [fst]; try congruence;
  rewrite R in R'; injection R' as <-; congruence.
Qed.

Lemma create_invoice_with_eq (notify : Invoice -> M Log unit) (env : Env)
    (cn ce d : string) (a : float) (s : St) :
  create_invoice_with notify env cn ce d a s =
  match generate_pdf env (new_row env cn ce d a s) "invoice.html"
                     (inserted env cn ce d a s) with
  | (Raise e, s2) =>
      (Ok (RedirectResponse "/" 303),
       handled (db s) e (new_row env cn ce d a s) s2)
  | (Ok f, s2) =>
      let o := set_status "Sent"
                 (set_filename (Some f) (new_row env cn ce d a s)) in
      match notify o (log s2) with
      | (Ok _, l) =>
          (Ok (RedirectResponse "/" 303),
           mkSt (db s ++ [o]) (fs s2) l
                (<["flash_message" :=
                     "Invoice successfully created and sent to " +:+ ce]>
                   (session s2)))
      | (Raise e, l) =>
          (Ok (RedirectResponse "/" 303),
           handled (db s) e o (set_log l s2))
      end
  end.
Proof.
  unfold create_invoice_with, run_frame, bind, try_except, db_add, ret,
    db_commit, db_refresh.
  cbn [id].
  change (set_id _ (stored (mkInvoice _ _ _ _ _ _ _ _)))
    with (new_row env cn ce d a s).
  cbn [id new_row db set_db].
  fold (new_row env cn ce d a s).
  rewrite (query_first_app_new (db s) (new_row env cn ce d a s) _
             (next_rowid_fresh (db s)) eq_refl).
  cbn [default from_option local global assign].
  fold (inserted env cn ce d a s).
  unfold Datatypes.id.
  destruct (generate_pdf env (new_row env cn ce d a s) "invoice.html"
              (inserted env cn ce d a s)) as [[f|e] s2] eqn:G;
    destruct (generate_pdf_frame _ _ _ _ _ _ G) as [Hdb Hse];
    unfold inserted in Hdb; cbn [db set_db] in Hdb.
  - cbn [assign id set_status set_filename new_row local].
    rewrite Hdb.
    rewrite (update_last (db s) (new_row env cn ce d a s) _ _
               (next_rowid_fresh (db s)) eq_refl).
    unfold global, logging, session_set, logger_error, modify.
    cbn [db set_db log set_log fs session set_session].
    fold (new_row env cn ce d a s).
    destruct (notify _ (log s2)) as [[u|e] l] eqn:N.
    + cbn [db set_db log set_log fs session set_session].
      destruct s2; reflexivity.
    + cbn [db set_db log set_log fs session set_session id assign modify
             set_status set_filename new_row].
      erewrite update_last; [|apply next_rowid_fresh|reflexivity].
      unfold handled. cbn [db set_db log set_log fs session set_session].
      destruct s2; reflexivity.
  - unfold global, logging, session_set, logger_error, modify, handled.
    cbn [db set_db log set_log fs session set_session id set_status new_row
           assign].
    rewrite Hdb.
    erewrite update_last; [|apply next_rowid_fresh|reflexivity].
    destruct s2; reflexivity.
Qed.

(** ** Outcomes of [create_invoice] *)

Lemma send_email_simulation_eq (o : Invoice) (l : Log) :
  send_email_simulation o l =
  (Ok tt,
   l ++ [(INFO, "--- EMAIL SIMULATION ---");
         (INFO, "To: " +:+ client_email o);
         (INFO, "Subject: Invoice #" +:+ str_int (id o) +:+ " from My Company Inc.");
         (INFO, "Body: Hello " +:+ client_name o
                +:+ ", please find your invoice attached.");
         (INFO, "Attachment: " +:+ str_opt (filename o));
         (INFO, "--- END EMAIL SIMULATION ---")]).
Proof.
  unfold send_email_simulation, bind, logger_info, modify.
  rewrite <- !app_assoc. reflexivity.
Qed.

Lemma create_invoice_failed (notify : Invoice -> M Log unit) (env : Env)
    (cn ce d : string) (a : float) (s s2 : St) (e : exn) :
  generate_pdf env (new_row env cn ce d a s) "invoice.html"
               (inserted env cn ce d a s) = (Raise e, s2) ->
  create_invoice_with notify env cn ce d a s =
  (Ok (RedirectResponse "/" 303), handled (db s) e (new_row env cn ce d a s) s2).
Proof. intros G. rewrite create_invoice_with_eq, G. reflexivity. Qed.

Lemma create_invoice_sent (env : Env) (cn ce d : string) (a : float)
    (s s2 : St) (f : string) :
  generate_pdf env (new_row env cn ce d a s) "invoice.html"
               (inserted env cn ce d a s) = (Ok f, s2) ->
  exists l,
    create_invoice env cn ce d a s =
    (Ok (RedirectResponse "/" 303),
     mkSt (db s ++ [set_status "Sent"
                      (set_filename (Some f) (new_row env cn ce d a s))])
          (fs s2) l
          (<["flash_message" :=
               "Invoice successfully created and sent to " +:+ ce]>
             (session s2))).
Proof.
  intros G. unfold create_invoice. rewrite create_invoice_with_eq, G.
  cbv zeta. rewrite send_email_simulation_eq. eexists. reflexivity.
Qed.

Lemma download_not_found_no_file (i : Z) (s : St) (r : Invoice) :
  query_first (db s) i = Some r -> filename r = None ->
  download_invoice i s = (Raise (HTTPException 404 "Invoice not found"), s).
Proof.
  intros Hq Hf. unfold download_invoice, bind, get. rewrite Hq, Hf. reflexivity.
Qed.

(** C1, as worded, fails: when the converter reports an error, the file
    opened under the generated handle is still in the data directory. *)
Lemma C1_partial_file_left_behind :
  ~ no_artifact_after_failure env_convert_err "Acme" "billing@acme.test"
      "Consulting" amount_125_50 st0.
Proof.
  intros H. destruct H as [_ Hfs].
  - exists (RuntimeError "PDF generation failed"). vm_compute. reflexivity.
  - vm_compute in Hfs. discriminate Hfs.
Qed.

(** C1 (amended): when [generate_pdf] fails, the persisted record ends with
    status "Error" and no artifact reference, so a download of it is
    answered "Invoice not found".  Nothing is written to the data
    directory when the template or [open] fails; when the conversion
    fails after [open], the file opened under the generated handle stays,
    holding what the converter wrote. *)
Theorem C1_failed_creation (env : Env) (cn ce d : string) (a : float)
    (s : St) (e : exn) :
  fst (generate_pdf env (new_row env cn ce d a s) "invoice.html"
                    (inserted env cn ce d a s)) = Raise e ->
  let s' := snd (create_invoice env cn ce d a s) in
  let n := next_rowid (db s) in
  let o := new_row env cn ce d a s in
  (exists r, query_first (db s') n = Some r /\
             status r = "Error" /\ filename r = None) /\
  fst (download_invoice n s') = Raise (HTTPException 404 "Invoice not found") /\
  (forall e', render_html env o "invoice.html" = Raise e' -> fs s' = fs s) /\
  (forall html e', render_html env o "invoice.html" = Ok html ->
     open_wb env (handle_path env) = Some e' -> fs s' = fs s) /\
  (forall html, render_html env o "invoice.html" = Ok html ->
     open_wb env (handle_path env) = None ->
     fs s' = <[handle_path env := written (CreatePDF env html)]> (fs s)).
Proof.
  intros H s' n o. subst o. set (o := new_row env cn ce d a s) in *.
  destruct (generate_pdf env o "invoice.html" (inserted env cn ce d a s))
    as [r s2] eqn:G.
  cbn [fst] in H. subst r.
  assert (Hs' : s' = handled (db s) e o s2).
  { unfold s', create_invoice.
    now rewrite (create_invoice_failed _ _ _ _ _ _ _ _ _ G). }
  assert (Hq : query_first (db s') n = Some (set_status "Error" o)).
  { rewrite Hs'. cbn [handled db].
    apply query_first_app_new; [apply next_rowid_fresh|reflexivity]. }
  split; [|split].
  - exists (set_status "Error" o). auto.
  - now rewrite (download_not_found_no_file _ _ _ Hq eq_refl).
  - rewrite Hs'. cbn [handled fs].
    destruct (generate_pdf_cases env o "invoice.html" (inserted env cn ce d a s))
      as [(e1 & R & E)|[(h & e1 & R & O & E)|(h & R & O & [(e1 & P & E)|[(x & P & Hx & E)|(P & E)]])]];
      rewrite E in G; pose proof (f_equal snd G) as Hs2; cbn [snd] in Hs2;
      subst s2; cbn [fs set_fs set_log inserted set_db];
      (split; [|split]); intros; congruence.
Qed.

(** An instance, on a request whose conversion reports an error. *)
Lemma C1_failed_creation_witness :
  fst (generate_pdf env_convert_err
         (new_row env_convert_err "Acme" "billing@acme.test" "Consulting"
                  amount_125_50 st0)
         "invoice.html"
         (inserted env_convert_err "Acme" "billing@acme.test" "Consulting"
                   amount_125_50 st0))
  = Raise (RuntimeError "PDF generation failed") /\
  exists r,
    query_first
      (db (snd (create_invoice env_convert_err "Acme" "billing@acme.test"
                               "Consulting" amount_125_50 st0))) 1 = Some r /\
    status r = "Error" /\ filename r = None.
Proof.
  assert (H : fst (generate_pdf env_convert_err
                     (new_row env_convert_err "Acme" "billing@acme.test"
                              "Consulting" amount_125_50 st0)
                     "invoice.html"
                     (inserted env_convert_err "Acme" "billing@acme.test"
                               "Consulting" amount_125_50 st0))
              = Raise (RuntimeError "PDF generation failed"))
    by (vm_compute; reflexivity).
  split; [exact H|].
  exact (proj1 (C1_failed_creation env_convert_err "Acme" "billing@acme.test"
                  "Consulting" amount_125_50 st0 _ H)).
Defined.

(** ** The artifact reference and the status *)

Lemma truthy_pdf_handle (env : Env) : truthy (Some (pdf_handle env)) = true.
Proof.
  unfold pdf_handle, truthy. generalize (Uuid.uuid4 (urandom env)).
  intros [|c u]; reflexivity.
Qed.

Lemma generate_pdf_handle (env : Env) (inv : Invoice) (tn : string)
    (s s2 : St) (f : string) :
  generate_pdf env inv tn s = (Ok f, s2) ->
  f = pdf_handle env /\
  exists html,
    render_html env inv tn = Ok html /\
    open_wb env (handle_path env) = None /\
    pisa_status (CreatePDF env html) = Ok 0 /\
    s2 = set_fs (<[handle_path env := written (CreatePDF env html)]> (fs s)) s.
Proof.
  intros G.
  destruct (generate_pdf_cases env inv tn s)
    as [(e1 & R & E)|[(h & e1 & R & O & E)|(h & R & O & [(e1 & P & E)|[(x & P & Hx & E)|(P & E)]])]];
    rewrite E in G; try discriminate G.
  pose proof (f_equal fst G) as Hf. pose proof (f_equal snd G) as Hs.
  cbn [fst snd] in Hf, Hs. split; [congruence|].
  exists h. auto.
Qed.

Lemma dashboard_eq (s : St) :
  dashboard s =
  (Ok (TemplateResponse "dashboard.html" (order_by_created_at_desc (db s))
                        (session s !! "flash_message")),
   set_session (delete "flash_message" (session s)) s).
Proof. reflexivity. Qed.

Lemma download_invoice_state (i : Z) (s : St) : snd (download_invoice i s) = s.
Proof.
  unfold download_invoice, bind, get, raise, ret.
  destruct (query_first (db s) i) as [r|]; [|reflexivity].
  destruct (negb (truthy (filename r))); [reflexivity|].
  now destruct (bool_decide _).
Qed.

Lemma artifact_invariant_new (env : Env) (cn ce d : string) (a : float) (s : St) :
  artifact_invariant (new_row env cn ce d a s).
Proof. split; intros H; discriminate H. Qed.

Lemma artifact_invariant_error (env : Env) (cn ce d : string) (a : float) (s : St) :
  artifact_invariant (set_status "Error" (new_row env cn ce d a s)).
Proof. split; intros H; discriminate H. Qed.

Lemma artifact_invariant_sent (env : Env) (cn ce d : string) (a : float) (s : St) :
  artifact_invariant
    (set_status "Sent" (set_filename (Some (pdf_handle env))
                                     (new_row env cn ce d a s))).
Proof.
  split; intros _; [reflexivity|]. cbn [filename set_status set_filename].
  apply truthy_pdf_handle.
Qed.

(** What [create_invoice] does to the table: one row is appended, and it
    is either the "Sent" row carrying the handle or the "Error" row
    without one. *)
Lemma create_invoice_db (env : Env) (cn ce d : string) (a : float) (s : St) :
  let o := new_row env cn ce d a s in
  db (snd (create_invoice env cn ce d a s)) =
    db s ++ [set_status "Sent" (set_filename (Some (pdf_handle env)) o)] \/
  db (snd (create_invoice env cn ce d a s)) = db s ++ [set_status "Error" o].
Proof.
  intros o.
  destruct (generate_pdf env o "invoice.html" (inserted env cn ce d a s))
    as [[f|e] s2] eqn:G.
  - left. destruct (create_invoice_sent _ _ _ _ _ _ _ _ G) as [l ->].
    destruct (generate_pdf_handle _ _ _ _ _ _ G) as [-> _]. reflexivity.
  - right. unfold create_invoice.
    rewrite (create_invoice_failed _ _ _ _ _ _ _ _ _ G). reflexivity.
Qed.

(** C2: in every state the routes reach from an empty table, each record's
    artifact reference is non-empty exactly when its status is "Sent".
    Each write keeps it so: the inserted row is "Processing" without a
    reference, the success update sets the reference together with
    "Sent", and the error update marks a row that has no reference. *)
Theorem C2_artifact_iff_sent :
  (forall s, reachable s -> Forall artifact_invariant (db s)) /\
  (forall env cn ce d a s,
      Forall artifact_invariant (db s) ->
      let o := new_row env cn ce d a s in
      let s' := snd (create_invoice env cn ce d a s) in
      Forall artifact_invariant (db (inserted env cn ce d a s)) /\
      (db s' = db s ++ [set_status "Sent" (set_filename (Some (pdf_handle env)) o)]
       \/ db s' = db s ++ [set_status "Error" o]) /\
      Forall artifact_invariant (db s')).
Proof.
  assert (Hstep : forall env cn ce d a s,
      Forall artifact_invariant (db s) ->
      let o := new_row env cn ce d a s in
      let s' := snd (create_invoice env cn ce d a s) in
      Forall artifact_invariant (db (inserted env cn ce d a s)) /\
      (db s' = db s ++ [set_status "Sent" (set_filename (Some (pdf_handle env)) o)]
       \/ db s' = db s ++ [set_status "Error" o]) /\
      Forall artifact_invariant (db s')).
  { intros env cn ce d a s Hinv o s'. split; [|split].
    - cbn [inserted db set_db]. apply Forall_app. split; [assumption|].
      constructor; [apply artifact_invariant_new|constructor].
    - apply create_invoice_db.
    - destruct (create_invoice_db env cn ce d a s) as [E|E];
        fold s' in E; rewrite E; apply Forall_app; (split; [assumption|]);
        (constructor; [|constructor]).
      + apply artifact_invariant_sent.
      + apply artifact_invariant_error. }
  split; [|exact Hstep].
  induction 1 as [f l m|env cn ce d a s _ IH|s _ IH|i s _ IH].
  - constructor.
  - apply (Hstep env cn ce d a s IH).
  - rewrite dashboard_eq. exact IH.
  - now rewrite download_invoice_state.
Qed.

(** An instance, after a successful and a failed creation. *)
Lemma C2_artifact_iff_sent_witness :
  Forall artifact_invariant
    (db (snd (create_invoice env_convert_err "B" "b@b.test" "Hosting" amount_neg
                (snd (create_invoice env_ok "Acme" "billing@acme.test"
                                     "Consulting" amount_125_50 st0))))).
Proof.
  apply (proj1 C2_artifact_iff_sent).
  apply reach_create. apply reach_create. apply reach_empty.
Defined.

(** ** Successful creation and download *)

Lemma download_invoice_found (i : Z) (s : St) (r : Invoice) (f : string)
    (body : list byte) :
  query_first (db s) i = Some r -> filename r = Some f ->
  truthy (Some f) = true ->
  fs s !! os_path_join DATA_DIR f = Some body ->
  download_invoice i s =
  (Ok (FileResponse (os_path_join DATA_DIR f) "application/pdf"
                    ("Invoice_" +:+ pretty i +:+ ".pdf")), s).
Proof.
  intros Hq Hf Ht Hb. unfold download_invoice, bind, get.
  rewrite Hq, Hf, Ht. cbn [negb str_opt]. rewrite Hb.
  rewrite bool_decide_eq_true_2 by eauto. reflexivity.
Qed.

(** C3: when [generate_pdf] succeeds (and the converter, on success, has
    written a PDF), the persisted record ends with status "Sent" and a
    non-empty artifact reference, and a download of its id answers with
    the file at that reference, content type application/pdf and file
    name Invoice_<id>.pdf; the body is what the converter wrote and
    begins with "%PDF". *)
Theorem C3_successful_creation (env : Env) (cn ce d : string) (a : float)
    (s : St) (f : string) :
  fst (generate_pdf env (new_row env cn ce d a s) "invoice.html"
                    (inserted env cn ce d a s)) = Ok f ->
  (forall html, pisa_status (CreatePDF env html) = Ok 0 ->
                has_pdf_magic (written (CreatePDF env html)) = true) ->
  let s' := snd (create_invoice env cn ce d a s) in
  let n := next_rowid (db s) in
  (exists r, query_first (db s') n = Some r /\ status r = "Sent" /\
             filename r = Some f /\ truthy (filename r) = true) /\
  exists body,
    download_invoice n s' =
      (Ok (FileResponse (os_path_join DATA_DIR f) "application/pdf"
                        ("Invoice_" +:+ pretty n +:+ ".pdf")), s') /\
    response_body s' (FileResponse (os_path_join DATA_DIR f) "application/pdf"
                        ("Invoice_" +:+ pretty n +:+ ".pdf")) = Some body /\
    has_pdf_magic body = true /\
    exists html,
      render_html env (new_row env cn ce d a s) "invoice.html" = Ok html /\
      body = written (CreatePDF env html).
Proof.
  intros H Hpdf s' n.
  destruct (generate_pdf env (new_row env cn ce d a s) "invoice.html"
              (inserted env cn ce d a s)) as [r s2] eqn:G.
  cbn [fst] in H. subst r.
  destruct (generate_pdf_handle _ _ _ _ _ _ G) as [Hf (html & R & O & P & Hs2)].
  destruct (create_invoice_sent _ _ _ _ _ _ _ _ G) as [l Hc].
  assert (Hs' : s' = mkSt (db s ++ [set_status "Sent"
                             (set_filename (Some f) (new_row env cn ce d a s))])
                          (fs s2) l
                          (<["flash_message" :=
                               "Invoice successfully created and sent to " +:+ ce]>
                             (session s2)))
    by (unfold s'; now rewrite Hc).
  assert (Hq : query_first (db s') n
               = Some (set_status "Sent"
                         (set_filename (Some f) (new_row env cn ce d a s)))).
  { rewrite Hs'. cbn [db].
    apply query_first_app_new; [apply next_rowid_fresh|reflexivity]. }
  assert (Ht : truthy (Some f) = true) by (rewrite Hf; apply truthy_pdf_handle).
  assert (Hb : fs s' !! os_path_join DATA_DIR f
               = Some (written (CreatePDF env html))).
  { rewrite Hs', Hs2, Hf. cbn [fs set_fs]. apply lookup_insert_eq. }
  split.
  - eexists. split; [exact Hq|]. repeat split. exact Ht.
  - exists (written (CreatePDF env html)). split; [|split; [|split]].
    + exact (download_invoice_found _ _ _ _ _ Hq eq_refl Ht Hb).
    + exact Hb.
    + apply Hpdf, P.
    + exists html. split; [exact R|reflexivity].
Qed.

(** An instance, on the round trip of the Acme invoice. *)
Lemma C3_successful_creation_witness :
  exists body,
    download_invoice 1
      (snd (create_invoice env_ok "Acme" "billing@acme.test" "Consulting"
                           amount_125_50 st0)) =
      (Ok (FileResponse "data/00000000-0000-4000-8000-000000000005.pdf"
                        "application/pdf" "Invoice_1.pdf"),
       snd (create_invoice env_ok "Acme" "billing@acme.test" "Consulting"
                           amount_125_50 st0)) /\
    has_pdf_magic body = true.
Proof.
  destruct (C3_successful_creation env_ok "Acme" "billing@acme.test"
              "Consulting" amount_125_50 st0
              "00000000-0000-4000-8000-000000000005.pdf")
    as [_ (body & Hd & _ & Hm & _)].
  - vm_compute. reflexivity.
  - intros html _. vm_compute. reflexivity.
  - exists body. split; [exact Hd|exact Hm].
Defined.

(** ** The response of [create_invoice] *)

Lemma redirect_any_notifier (notify : Invoice -> M Log unit) (env : Env)
    (cn ce d : string) (a : float) (s : St) :
  fst (create_invoice_with notify env cn ce d a s)
  = Ok (RedirectResponse "/" 303).
Proof.
  rewrite create_invoice_with_eq.
  destruct (generate_pdf _ _ _ _) as [[f|e] s2]; [|reflexivity].
  cbv zeta. now destruct (notify _ _) as [[u|e] l].
Qed.

(** C6: whatever the template engine, [open], the converter and the
    notify step do (return or raise), [create_invoice] returns
    normally, and its response is the redirect to "/" with status 303. *)
Theorem C6_always_redirects :
  (forall env cn ce d a s,
      fst (create_invoice env cn ce d a s) = Ok (RedirectResponse "/" 303)) /\
  (forall notify env cn ce d a s,
      fst (create_invoice_with notify env cn ce d a s)
      = Ok (RedirectResponse "/" 303)).
Proof.
  split; intros; apply redirect_any_notifier.
Qed.

(** ** The one-shot message *)

(** C5: a list call hands out the pending message and removes it from the
    session in the same step, so the next list call on that session (also
    after downloads in between) carries no message. *)
Theorem C5_flash_message_delivered_once (s : St) :
  let s1 := snd (dashboard s) in
  fst (dashboard s)
    = Ok (TemplateResponse "dashboard.html" (order_by_created_at_desc (db s))
                           (session s !! "flash_message")) /\
  session s1 !! "flash_message" = None /\
  fst (dashboard s1)
    = Ok (TemplateResponse "dashboard.html" (order_by_created_at_desc (db s))
                           None) /\
  (forall i, fst (dashboard (snd (download_invoice i s1)))
    = Ok (TemplateResponse "dashboard.html" (order_by_created_at_desc (db s))
                           None)).
Proof.
  intros s1. unfold s1. rewrite !dashboard_eq. cbn [fst snd].
  assert (H : session (set_session (delete "flash_message" (session s)) s)
              !! "flash_message" = None)
    by (cbn [session set_session]; apply lookup_delete_eq).
  repeat split.
  - exact H.
  - now rewrite H.
  - intros i. rewrite download_invoice_state, dashboard_eq. cbn [fst].
    now rewrite H.
Qed.

(** ** Download failures *)

Lemma query_first_none (rows : list Invoice) (i : Z) :
  (forall r, In r rows -> id r <> Some i) -> query_first rows i = None.
Proof.
  unfold query_first. induction rows as [|r rows IH]; intros H; cbn [find].
  - reflexivity.
  - destruct (has_id i r) eqn:E.
    + apply has_id_true in E. exfalso. apply (H r); [now left|exact E].
    + apply IH. intros r' Hr'. apply H. now right.
Qed.

(** C7: a download is answered with the 404 "Invoice not found" when no
    record has the id or the record has no artifact reference, and with
    the 404 "PDF file missing" when the record has a reference but no file
    is stored under it; the two exceptions differ in their detail. *)
Theorem C7_download_not_found (i : Z) (s : St) :
  ((forall r, In r (db s) -> id r <> Some i) ->
   download_invoice i s = (Raise (HTTPException 404 "Invoice not found"), s)) /\
  (forall r, query_first (db s) i = Some r -> truthy (filename r) = false ->
   download_invoice i s = (Raise (HTTPException 404 "Invoice not found"), s)) /\
  (forall r f, query_first (db s) i = Some r -> filename r = Some f ->
   truthy (filename r) = true -> fs s !! os_path_join DATA_DIR f = None ->
   download_invoice i s = (Raise (HTTPException 404 "PDF file missing"), s)) /\
  HTTPException 404 "Invoice not found" <> HTTPException 404 "PDF file missing".
Proof.
  unfold download_invoice, bind, get, raise. repeat split.
  - intros H. now rewrite (query_first_none _ _ H).
  - intros r Hq Ht. now rewrite Hq, Ht.
  - intros r f Hq Hf Ht Hb. rewrite Hq, Ht, Hf. cbn [negb str_opt].
    rewrite Hb. rewrite bool_decide_eq_false_2; [reflexivity|].
    intros [x Hx]. discriminate Hx.
  - discriminate.
Qed.

(** An instance, on an unknown id, and on an invoice whose file
    was removed from the data directory. *)
Lemma C7_download_not_found_witness :
  let s := snd (create_invoice env_ok "Acme" "billing@acme.test" "Consulting"
                               amount_125_50 st0) in
  let s_gone := set_fs (delete (handle_path env_ok) (fs s)) s in
  fst (download_invoice 7 s) = Raise (HTTPException 404 "Invoice not found") /\
  fst (download_invoice 1 s_gone) = Raise (HTTPException 404 "PDF file missing").
Proof.
  intros s s_gone. split.
  - rewrite (proj1 (C7_download_not_found 7 s)); [reflexivity|].
    intros r Hr. vm_compute in Hr. destruct Hr as [<-|[]]. discriminate.
  - destruct (C7_download_not_found 1 s_gone) as (_ & _ & H & _).
    rewrite (H (set_status "Sent"
                  (set_filename (Some (pdf_handle env_ok))
                     (new_row env_ok "Acme" "billing@acme.test" "Consulting"
                              amount_125_50 st0)))
               (pdf_handle env_ok)).
    + reflexivity.
    + vm_compute. reflexivity.
    + reflexivity.
    + vm_compute. reflexivity.
    + vm_compute. reflexivity.
Defined.

(** ** The listing *)

Section Listing.

Implicit Types (x y z : Invoice) (l : list Invoice).

Lemma In_place_desc x y l : In y (place_desc x l) <-> y = x \/ In y l.
Proof.
  induction l as [|z l IH]; cbn [place_desc In].
  - intuition.
  - destruct (created_at z <=? created_at x); cbn [In]; [intuition|].
    rewrite IH. intuition.
Qed.

Lemma place_desc_perm x l : Permutation (place_desc x l) (x :: l).
Proof.
  induction l as [|z l IH]; cbn [place_desc]; [reflexivity|].
  destruct (created_at z <=? created_at x); [reflexivity|].
  rewrite IH. apply perm_swap.
Qed.

Lemma order_by_perm l : Permutation (order_by_created_at_desc l) l.
Proof.
  induction l as [|z l IH]; cbn [order_by_created_at_desc foldr];
    [reflexivity|].
  fold (order_by_created_at_desc l). rewrite place_desc_perm. now constructor.
Qed.

Lemma place_desc_sorted x l :
  StronglySorted not_older l -> StronglySorted not_older (place_desc x l).
Proof.
  induction 1 as [|z l Hs IH Hz]; cbn [place_desc].
  - repeat constructor.
  - destruct (Z.leb_spec (created_at z) (created_at x)) as [Hle|Hgt].
    + constructor; [now constructor|]. constructor; [exact Hle|].
      eapply Forall_impl; [exact Hz|]. unfold not_older. intros; lia.
    + constructor; [exact IH|]. apply List.Forall_forall. intros w Hw.
      apply In_place_desc in Hw as [->|Hw].
      * unfold not_older. lia.
      * rewrite List.Forall_forall in Hz. now apply Hz.
Qed.

Lemma order_by_sorted l :
  StronglySorted not_older (order_by_created_at_desc l).
Proof.
  induction l as [|z l IH]; cbn [order_by_created_at_desc foldr];
    [constructor|].
  now apply place_desc_sorted.
Qed.

Lemma before_cons x y z l : before x y l -> before x y (z :: l).
Proof. intros (l1 & l2 & l3 & ->). now exists (z :: l1), l2, l3. Qed.

Lemma before_head x y l : In y l -> before x y (x :: l).
Proof.
  intros H. apply in_split in H as (l2 & l3 & ->). now exists [], l2, l3.
Qed.

Lemma before_place_keep x y z l :
  before x y l -> before x y (place_desc z l).
Proof.
  induction l as [|w l IH]; intros (l1 & l2 & l3 & E).
  - now destruct l1.
  - cbn [place_desc]. destruct (created_at w <=? created_at z).
    + apply before_cons. now exists l1, l2, l3.
    + destruct l1 as [|w' l1]; cbn [app] in E; injection E as -> ->.
      * apply before_head, In_place_desc. right.
        apply in_or_app. right. now left.
      * apply before_cons, IH. now exists l1, l2, l3.
Qed.

(** The placed row goes before every row that is not newer than it. *)
Lemma place_before_not_newer x y l :
  In y l -> created_at y <= created_at x -> before x y (place_desc x l).
Proof.
  induction l as [|z l IH]; intros Hin Hle; [destruct Hin|].
  cbn [place_desc].
  destruct (Z.leb_spec (created_at z) (created_at x)) as [Hz|Hz].
  - now apply before_head.
  - destruct Hin as [->|Hin]; [lia|]. now apply before_cons, IH.
Qed.

(** In a sorted listing, the placed row goes after every newer row. *)
Lemma place_after_newer x y l :
  StronglySorted not_older l ->
  In y l -> created_at x < created_at y -> before y x (place_desc x l).
Proof.
  induction 1 as [|z l Hs IH Hz]; intros Hin Hlt; [destruct Hin|].
  cbn [place_desc].
  destruct (Z.leb_spec (created_at z) (created_at x)) as [Hle|Hgt].
  - exfalso. destruct Hin as [->|Hin]; [lia|].
    rewrite List.Forall_forall in Hz. specialize (Hz y Hin).
    unfold not_older in Hz. lia.
  - destruct Hin as [->|Hin].
    + apply before_head, In_place_desc. now left.
    + now apply before_cons, IH.
Qed.

(** Any two rows of the table are listed newest first, and rows with the
    same timestamp in the order of insertion. *)
Lemma order_by_pairs l1 x l2 y l3 :
  let listing := order_by_created_at_desc (l1 ++ x :: l2 ++ y :: l3) in
  (created_at x < created_at y -> before y x listing) /\
  (created_at y <= created_at x -> before x y listing).
Proof.
  induction l1 as [|z l1 IH]; cbn [app order_by_created_at_desc foldr].
  - fold (order_by_created_at_desc (l2 ++ y :: l3)).
    assert (Hin : In y (order_by_created_at_desc (l2 ++ y :: l3))).
    { apply (Permutation_in _ (Permutation_sym (order_by_perm _))).
      apply in_or_app. right. now left. }
    split; intros H.
    + apply place_after_newer; [apply order_by_sorted|exact Hin|exact H].
    + now apply place_before_not_newer.
  - fold (order_by_created_at_desc (l1 ++ x :: l2 ++ y :: l3)).
    destruct IH as [IH1 IH2].
    split; intros H; apply before_place_keep; auto.
Qed.

End Listing.

(** The row [create_invoice] appends. *)
Lemma create_invoice_row (env : Env) (cn ce d : string) (a : float) (s : St) :
  exists r,
    db (snd (create_invoice env cn ce d a s)) = db s ++ [r] /\
    id r = Some (next_rowid (db s)) /\ created_at r = now env /\
    amount r = sqlite_real a.
Proof.
  destruct (create_invoice_db env cn ce d a s) as [E|E];
    eexists; (split; [exact E|]); repeat split.
Qed.

Lemma max_rowid_app (rows : list Invoice) (r : Invoice) (i : Z) :
  id r = Some i -> i <= max_rowid (rows ++ [r]).
Proof.
  intros H. apply (max_rowid_ge _ r); [|exact H].
  apply in_or_app. right. now left.
Qed.

(** C4, as worded, fails: two invoices created one after the other at the
    same instant are listed in the order of creation, the first one
    first. *)
Lemma C4_same_instant_keeps_creation_order :
  ~ later_listed_first env_ok env_same_instant "Acme" "billing@acme.test"
      "Consulting" amount_125_50 st0.
Proof.
  intros H. unfold later_listed_first in H. cbv zeta in H.
  specialize (H _ _ ltac:(vm_compute; reflexivity) ltac:(vm_compute; reflexivity)).
  destruct H as (l1 & l2 & l3 & E). vm_compute in E.
  destruct l1 as [|r1 [|r2 l1]]; cbn [app] in E.
  - apply (f_equal (fun l => match l with r :: _ => id r | [] => None end)) in E.
    discriminate E.
  - apply (f_equal (@length _)) in E. cbn [length] in E.
    rewrite length_app in E. cbn [length] in E. lia.
  - apply (f_equal (@length _)) in E. cbn [length] in E.
    rewrite !length_app in E. cbn [length] in E. rewrite length_app in E.
    cbn [length] in E. lia.
Qed.

(** C4 (amended): the list operation returns all invoices, newest first,
    and invoices with equal timestamps in the order of insertion.  For two
    invoices created in sequence A then B, B is listed before A when its
    timestamp is later than A's; when it is not, A is listed before B. *)
Theorem C4_listing_order :
  (forall s, exists listing,
      fst (dashboard s)
        = Ok (TemplateResponse "dashboard.html" listing
                               (session s !! "flash_message")) /\
      Permutation listing (db s) /\
      StronglySorted not_older listing /\
      forall l1 x l2 y l3,
        db s = l1 ++ x :: l2 ++ y :: l3 ->
        (created_at x < created_at y -> before y x listing) /\
        (created_at y <= created_at x -> before x y listing)) /\
  (forall envA envB cnA ceA dA aA cnB ceB dB aB s,
      let sA := snd (create_invoice envA cnA ceA dA aA s) in
      let sB := snd (create_invoice envB cnB ceB dB aB sA) in
      exists rA rB,
        query_first (db sB) (next_rowid (db s)) = Some rA /\
        query_first (db sB) (next_rowid (db sA)) = Some rB /\
        created_at rA = now envA /\ created_at rB = now envB /\
        (now envA < now envB ->
         before rB rA (order_by_created_at_desc (db sB))) /\
        (now envB <= now envA ->
         before rA rB (order_by_created_at_desc (db sB)))).
Proof.
  split.
  - intros s. exists (order_by_created_at_desc (db s)).
    rewrite dashboard_eq. cbn [fst]. split; [reflexivity|].
    split; [apply order_by_perm|]. split; [apply order_by_sorted|].
    intros l1 x l2 y l3 ->. apply order_by_pairs.
  - intros envA envB cnA ceA dA aA cnB ceB dB aB s sA sB.
    destruct (create_invoice_row envA cnA ceA dA aA s) as (rA & EA & IA & TA & _).
    destruct (create_invoice_row envB cnB ceB dB aB sA) as (rB & EB & IB & TB & _).
    fold sA in EA. fold sB in EB. rewrite EA in EB.
    assert (Hlt : next_rowid (db s) < next_rowid (db sA)).
    { rewrite EA. unfold next_rowid at 2.
      pose proof (max_rowid_app (db s) rA _ IA). lia. }
    exists rA, rB. split; [|split; [|split; [|split; [|split]]]].
    + rewrite EB, query_first_app_old.
      * apply query_first_app_new; [apply next_rowid_fresh|exact IA].
      * rewrite IB. intros [= E]. lia.
    + rewrite EB. rewrite <- EA.
      apply query_first_app_new; [apply next_rowid_fresh|exact IB].
    + exact TA.
    + exact TB.
    + intros H. rewrite EB, <- app_assoc. cbn [app].
      apply (order_by_pairs (db s) rA [] rB []). lia.
    + intros H. rewrite EB, <- app_assoc. cbn [app].
      apply (order_by_pairs (db s) rA [] rB []). lia.
Qed.

(** An instance, on two creations, the second one later. *)
Lemma C4_listing_order_witness :
  let sA := snd (create_invoice env_ok "Acme" "billing@acme.test" "Consulting"
                                amount_125_50 st0) in
  let sB := snd (create_invoice env_later "B" "b@b.test" "Hosting"
                                amount_neg sA) in
  exists rA rB,
    id rA = Some 1 /\ id rB = Some 2 /\
    before rB rA (order_by_created_at_desc (db sB)).
Proof.
  intros sA sB.
  destruct (proj2 C4_listing_order env_ok env_later "Acme" "billing@acme.test"
              "Consulting" amount_125_50 "B" "b@b.test" "Hosting" amount_neg st0)
    as (rA & rB & QA & QB & _ & _ & Hlt & _).
  fold sA in QA, QB, Hlt. fold sB in QA, QB, Hlt.
  exists rA, rB. split; [|split].
  - vm_compute in QA. now injection QA as <-.
  - vm_compute in QB. now injection QB as <-.
  - apply Hlt. vm_compute. reflexivity.
Defined.

(** ** The notify step *)

(** C8, as worded, fails: a notify step that raises after the record was
    committed as "Sent" lands in the [except] handler, which commits the
    status "Error". *)
Lemma C8_notify_failure_marks_error :
  ~ notify_failure_keeps_sent failing_notifier env_ok "Acme"
      "billing@acme.test" "Consulting" amount_125_50 st0.
Proof.
  intros H. unfold notify_failure_keeps_sent in H.
  edestruct H as (r & Hq & Hs & _).
  - vm_compute. reflexivity.
  - vm_compute. reflexivity.
  - vm_compute in Hq.
    apply (f_equal (fun x => match x with Some r => status r | None => "" end))
      in Hq.
    cbn [status] in Hq. rewrite Hs in Hq. discriminate Hq.
Qed.

(** C8 (amended): once the record is committed as "Sent", a failure of the
    notify step is not raised to the caller (the response is the same
    redirect) and the artifact reference and the file stay, but the
    handler logs the error, commits the status "Error" and sets the error
    message.  The record stays "Sent" when the notify step returns, which
    [send_email_simulation], a sequence of log calls, always does. *)
Theorem C8_notify_outcome (notify : Invoice -> M Log unit) (env : Env)
    (cn ce d : string) (a : float) (s s2 : St) (f : string) :
  generate_pdf env (new_row env cn ce d a s) "invoice.html"
               (inserted env cn ce d a s) = (Ok f, s2) ->
  let o := set_status "Sent" (set_filename (Some f) (new_row env cn ce d a s)) in
  let s' := snd (create_invoice_with notify env cn ce d a s) in
  let n := next_rowid (db s) in
  fst (create_invoice_with notify env cn ce d a s)
    = Ok (RedirectResponse "/" 303) /\
  (forall u l, notify o (log s2) = (Ok u, l) ->
     exists r, query_first (db s') n = Some r /\
               status r = "Sent" /\ filename r = Some f) /\
  (forall e l, notify o (log s2) = (Raise e, l) ->
     (exists r, query_first (db s') n = Some r /\
                status r = "Error" /\ filename r = Some f) /\
     fs s' = fs s2 /\
     log s' = l ++ [(ERROR, "Error processing invoice: " +:+ str_exn e)] /\
     session s' !! "flash_message"
       = Some "Error generating invoice. Please check logs.") /\
  (exists l, send_email_simulation o (log s2) = (Ok tt, l)) /\
  (exists r, query_first (db (snd (create_invoice env cn ce d a s))) n = Some r /\
             status r = "Sent" /\ filename r = Some f).
Proof.
  intros G o s' n. split; [apply redirect_any_notifier|].
  assert (Hs' : s' = snd (let (r, l) := notify o (log s2) in
                          match r with
                          | Ok _ =>
                              (Ok (RedirectResponse "/" 303),
                               mkSt (db s ++ [o]) (fs s2) l
                                 (<["flash_message" :=
                                      "Invoice successfully created and sent to "
                                      +:+ ce]> (session s2)))
                          | Raise e =>
                              (Ok (RedirectResponse "/" 303),
                               handled (db s) e o (set_log l s2))
                          end)).
  { unfold s'. now rewrite create_invoice_with_eq, G. }
  split; [|split; [|split]].
  - intros u l N. rewrite N in Hs'. cbn [snd] in Hs'. exists o.
    rewrite Hs'. cbn [db]. split; [|split; reflexivity].
    apply query_first_app_new; [apply next_rowid_fresh|reflexivity].
  - intros e l N. rewrite N in Hs'. cbn [snd] in Hs'. rewrite Hs'.
    cbn [handled db fs log session set_log]. split; [|split; [|split]].
    + exists (set_status "Error" o). split; [|split; reflexivity].
      apply query_first_app_new; [apply next_rowid_fresh|reflexivity].
    + reflexivity.
    + reflexivity.
    + apply lookup_insert_eq.
  - rewrite send_email_simulation_eq. eexists. reflexivity.
  - destruct (create_invoice_sent _ _ _ _ _ _ _ _ G) as [l ->].
    exists o. cbn [snd db]. split; [|split; reflexivity].
    apply query_first_app_new; [apply next_rowid_fresh|reflexivity].
Qed.

(** An instance, with a notify step that raises. *)
Lemma C8_notify_outcome_witness :
  exists r,
    query_first
      (db (snd (create_invoice_with failing_notifier env_ok "Acme"
                  "billing@acme.test" "Consulting" amount_125_50 st0))) 1
      = Some r /\
    status r = "Error" /\
    filename r = Some "00000000-0000-4000-8000-000000000005.pdf".
Proof.
  refine (proj1 (proj1 (proj2 (proj2
    (C8_notify_outcome failing_notifier env_ok "Acme" "billing@acme.test"
       "Consulting" amount_125_50 st0 _ _ _))) _ _ _)).
  - vm_compute. reflexivity.
  - vm_compute. reflexivity.
Defined.

(** ** Handles *)

Section UuidFacts.

Import Uuid.

Lemma hex_value_digit (n : Z) : 0 <= n < 16 -> hex_value (hex_digit n) = n.
Proof.
  intros H. rewrite <- (Z2Nat.id n) at 2 by lia.
  assert (Hk : (Z.to_nat n < 16)%nat) by lia.
  unfold hex_digit. generalize dependent (Z.to_nat n). intros k Hk.
  do 16 (destruct k as [|k]; [reflexivity|]). lia.
Qed.

Lemma hex_digit_inj (a b : Z) :
  0 <= a < 16 -> 0 <= b < 16 -> hex_digit a = hex_digit b -> a = b.
Proof.
  intros Ha Hb E. rewrite <- (hex_value_digit a Ha), <- (hex_value_digit b Hb).
  now rewrite E.
Qed.

Lemma hex_le_length (w : nat) (x : Z) : length (hex_le w x) = w.
Proof. revert x. induction w as [|w IH]; intros x; cbn; [|rewrite IH]; reflexivity. Qed.

(** The digits determine the number up to [16^w], and conversely. *)
Lemma hex_le_eq_iff (w : nat) (x y : Z) :
  hex_le w x = hex_le w y <-> x mod 16 ^ Z.of_nat w = y mod 16 ^ Z.of_nat w.
Proof.
  revert x y. induction w as [|w IH]; intros x y.
  - cbn [hex_le]. change (16 ^ Z.of_nat 0) with 1. rewrite !Z.mod_1_r. tauto.
  - cbn [hex_le]. rewrite Nat2Z.inj_succ, Z.pow_succ_r by lia.
    assert (Hp : 0 < 16 ^ Z.of_nat w) by (apply Z.pow_pos_nonneg; lia).
    rewrite (Z.rem_mul_r x 16 (16 ^ Z.of_nat w)) by lia.
    rewrite (Z.rem_mul_r y 16 (16 ^ Z.of_nat w)) by lia.
    pose proof (Z.mod_pos_bound x 16 ltac:(lia)).
    pose proof (Z.mod_pos_bound y 16 ltac:(lia)).
    split.
    + intros E. injection E as Ed Er. apply hex_digit_inj in Ed; [|lia|lia].
      apply IH in Er. lia.
    + intros E.
      assert (E1 : x mod 16 = y mod 16) by lia.
      assert (E2 : (x / 16) mod 16 ^ Z.of_nat w = (y / 16) mod 16 ^ Z.of_nat w)
        by lia.
      rewrite E1. f_equal. now apply IH.
Qed.

Lemma undashed_dashed (h : list ascii) : length h = 32%nat -> undashed (dashed h) = h.
Proof.
  intros H.
  do 32 (destruct h as [|? h]; [discriminate H|]).
  destruct h; [reflexivity|discriminate H].
Qed.

Lemma str_uuid_eq_iff (x y : Z) :
  str_uuid x = str_uuid y <-> x mod 2 ^ 128 = y mod 2 ^ 128.
Proof.
  change (2 ^ 128) with (16 ^ Z.of_nat 32). rewrite <- hex_le_eq_iff.
  unfold str_uuid, hex32. split.
  - intros E.
    apply (f_equal list_ascii_of_string) in E.
    rewrite !list_ascii_of_string_of_list_ascii in E.
    apply (f_equal undashed) in E.
    rewrite !undashed_dashed in E
      by (now rewrite length_rev, hex_le_length).
    apply (f_equal (@rev _)) in E. now rewrite !rev_involutive in E.
  - now intros ->.
Qed.

Lemma uuid4_int_low (r : Z) :
  uuid4_int r mod 2 ^ 128 = Z.lor (Z.land r kept_bits) forced_bits.
Proof.
  rewrite <- Z.land_ones by lia. unfold uuid4_int. cbv zeta.
  rewrite !Z.land_lor_distr_l, <- !Z.land_assoc, <- Z.lor_assoc.
  reflexivity.
Qed.

Lemma kept_forced_disjoint : Z.land forced_bits kept_bits = 0.
Proof. reflexivity. Qed.

Lemma uuid4_eq_iff (r1 r2 : Z) :
  uuid4 r1 = uuid4 r2 <-> Z.land r1 kept_bits = Z.land r2 kept_bits.
Proof.
  unfold uuid4. rewrite str_uuid_eq_iff, !uuid4_int_low. split.
  - intros E. apply (f_equal (fun v => Z.land v kept_bits)) in E.
    rewrite !Z.land_lor_distr_l, kept_forced_disjoint, !Z.lor_0_r in E.
    now rewrite <- !Z.land_assoc, !Z.land_diag in E.
  - now intros ->.
Qed.

End UuidFacts.

Lemma list_ascii_of_string_app (s t : string) :
  list_ascii_of_string (s +:+ t)
  = list_ascii_of_string s ++ list_ascii_of_string t.
Proof.
  induction s as [|c s IH]; [reflexivity|].
  change (String c s +:+ t) with (String c (s +:+ t)).
  cbn [list_ascii_of_string app]. now rewrite IH.
Qed.

Lemma append_inj_r (s1 s2 t : string) : s1 +:+ t = s2 +:+ t -> s1 = s2.
Proof.
  intros E. apply (f_equal list_ascii_of_string) in E.
  rewrite !list_ascii_of_string_app in E. apply app_inv_tail in E.
  apply (f_equal string_of_list_ascii) in E.
  now rewrite !string_of_list_ascii_of_string in E.
Qed.

Lemma pdf_handle_eq_iff (envA envB : Env) :
  pdf_handle envA = pdf_handle envB <->
  Z.land (urandom envA) kept_bits = Z.land (urandom envB) kept_bits.
Proof.
  rewrite <- uuid4_eq_iff. unfold pdf_handle. split.
  - apply append_inj_r.
  - now intros ->.
Qed.

(** C9, as worded, fails: two saves whose draws differ only in a bit that
    [uuid4] overwrites get the same handle (and the second save
    overwrites the file of the first). *)
Lemma C9_two_saves_one_handle :
  ~ distinct_saves_distinct_handles env_ok env_colliding "Acme"
      "billing@acme.test" "Consulting" amount_125_50 st0.
Proof.
  intros H. unfold distinct_saves_distinct_handles in H. cbv zeta in H.
  eapply H.
  - vm_compute. reflexivity.
  - vm_compute. reflexivity.
  - reflexivity.
  - reflexivity.
  - reflexivity.
Qed.

(** C9 (amended): the handle is the version-4 UUID string of the random
    draw followed by ".pdf"; it is computed from the draw alone, whatever
    the invoice, the template and the state.  Two saves have the same
    handle exactly when their draws agree on the 122 bits that [uuid4]
    keeps, so saves with draws that differ there have distinct handles;
    there is no check against handles already in use. *)
Theorem C9_handle_from_draw_only (envA envB : Env) (invA invB : Invoice)
    (tnA tnB : string) (sA sB : St) (fA fB : string) :
  fst (generate_pdf envA invA tnA sA) = Ok fA ->
  fst (generate_pdf envB invB tnB sB) = Ok fB ->
  fA = Uuid.uuid4 (urandom envA) +:+ ".pdf" /\
  fB = Uuid.uuid4 (urandom envB) +:+ ".pdf" /\
  (fA = fB <->
   Z.land (urandom envA) kept_bits = Z.land (urandom envB) kept_bits) /\
  kept_bits = 0xffffffffffff0fff3fffffffffffffff.
Proof.
  intros HA HB.
  destruct (generate_pdf envA invA tnA sA) as [rA sA'] eqn:GA.
  destruct (generate_pdf envB invB tnB sB) as [rB sB'] eqn:GB.
  cbn [fst] in HA, HB. subst rA rB.
  destruct (generate_pdf_handle _ _ _ _ _ _ GA) as [-> _].
  destruct (generate_pdf_handle _ _ _ _ _ _ GB) as [-> _].
  repeat split; try reflexivity; apply pdf_handle_eq_iff.
Qed.

(** An instance, on two requests with the draws 5 and 6. *)
Lemma C9_handle_from_draw_only_witness :
  Uuid.uuid4 (urandom env_ok) +:+ ".pdf"
  <> Uuid.uuid4 (urandom env_later) +:+ ".pdf".
Proof.
  destruct (C9_handle_from_draw_only env_ok env_later
              (new_row env_ok "Acme" "billing@acme.test" "Consulting"
                       amount_125_50 st0)
              (new_row env_later "B" "b@b.test" "Hosting" amount_neg st0)
              "invoice.html" "invoice.html" st0 st0
              (Uuid.uuid4 (urandom env_ok) +:+ ".pdf")
              (Uuid.uuid4 (urandom env_later) +:+ ".pdf"))
    as (_ & _ & Hiff & _).
  - vm_compute. reflexivity.
  - vm_compute. reflexivity.
  - intros E. apply Hiff in E. vm_compute in E. discriminate E.
Defined.

(** ** The amount *)

(** [generate_pdf] looks at the invoice only through the template and the
    invoice id. *)
Lemma generate_pdf_congr (env : Env) (i1 i2 : Invoice) (tn : string) (s : St) :
  render_html env i1 tn = render_html env i2 tn -> id i1 = id i2 ->
  generate_pdf env i1 tn s = generate_pdf env i2 tn s.
Proof.
  unfold generate_pdf, render_html, bind, eval. intros R I.
  destruct (get_template env tn) as [t|e]; [|reflexivity].
  now rewrite R, I.
Qed.

(** [generate_pdf] neither reads nor writes the table. *)
Lemma generate_pdf_set_db (env : Env) (i : Invoice) (tn : string)
    (rows : list Invoice) (s : St) :
  generate_pdf env i tn (set_db rows s)
  = (fst (generate_pdf env i tn s), set_db rows (snd (generate_pdf env i tn s))).
Proof.
  unfold generate_pdf, bind, eval, open_and_convert, logging, logger_error,
    modify, raise, ret.
  destruct (get_template env tn) as [t|e]; [|reflexivity].
  destruct (t i) as [html|e]; [|reflexivity].
  destruct (open_wb env _) as [e|]; [reflexivity|].
  destruct (pisa_status (CreatePDF env html)) as [err|e]; [|reflexivity].
  now destruct (negb (err =? 0)).
Qed.

Lemma sqlite_real_cases (a : float) :
  (a <> S754_nan -> a <> S754_zero true -> sqlite_real a = Some a) /\
  (a = S754_nan -> sqlite_real a = None) /\
  (a = S754_zero true -> sqlite_real a = Some (S754_zero false)).
Proof.
  repeat split; try (intros ->; reflexivity).
  intros Hn Hz. destruct a as [[|]| | |]; try reflexivity; congruence.
Qed.

(** C10, as worded, fails.  A submitted NaN is stored as NULL, not as
    submitted, and a template that formats the amount then fails where a
    positive amount is rendered, so the record ends "Error" instead of
    "Sent"; a submitted negative zero is stored as 0.0. *)
Lemma C10_nan_is_stored_as_null :
  ~ amount_persisted_as_submitted env_formats_amount "Acme"
      "billing@acme.test" "Consulting" amount_nan st0 /\
  ~ proceeds_as_for env_formats_amount "Acme" "billing@acme.test"
      "Consulting" amount_nan amount_125_50 st0 /\
  ~ amount_persisted_as_submitted env_ok "Acme" "billing@acme.test"
      "Consulting" amount_neg_zero st0.
Proof.
  split; [|split].
  - intros (r & Hq & Ha). vm_compute in Hq.
    apply (f_equal (fun x => match x with Some r => amount r | None => None end))
      in Hq.
    cbn [amount] in Hq. rewrite Ha in Hq. discriminate Hq.
  - intros (_ & H & _).
    specialize (H _ _ ltac:(vm_compute; reflexivity)
                      ltac:(vm_compute; reflexivity)).
    destruct H as [H _]. discriminate H.
  - intros (r & Hq & Ha). vm_compute in Hq.
    apply (f_equal (fun x => match x with Some r => amount r | None => None end))
      in Hq.
    cbn [amount] in Hq. rewrite Ha in Hq. discriminate Hq.
Qed.

(** C10 (amended): [create_invoice] accepts every amount, negative and
    zero included: the response is the redirect and the record is
    persisted with the amount as the REAL column keeps it, which is the
    amount as submitted except that NaN is stored as NULL and negative
    zero as 0.0.  The route never looks at the amount, which reaches
    nothing but the template: for two amounts on which the template
    renders alike, the requests leave the same files, log and session,
    and records that differ in the amount only. *)
Theorem C10_amount_not_validated (env : Env) (cn ce d : string) (a : float)
    (s : St) :
  let s1 := snd (create_invoice env cn ce d a s) in
  fst (create_invoice env cn ce d a s) = Ok (RedirectResponse "/" 303) /\
  exists r,
    db s1 = db s ++ [r] /\
    query_first (db s1) (next_rowid (db s)) = Some r /\
    (a <> S754_nan -> a <> S754_zero true -> amount r = Some a) /\
    (a = S754_nan -> amount r = None) /\
    (a = S754_zero true -> amount r = Some (S754_zero false)) /\
    forall a',
      render_html env (new_row env cn ce d a' s) "invoice.html"
      = render_html env (new_row env cn ce d a s) "invoice.html" ->
      let s2 := snd (create_invoice env cn ce d a' s) in
      fst (create_invoice env cn ce d a' s) = Ok (RedirectResponse "/" 303) /\
      db s2 = db s ++ [set_amount (sqlite_real a') r] /\
      fs s2 = fs s1 /\ log s2 = log s1 /\ session s2 = session s1.
Proof.
  intros s1. split; [apply redirect_any_notifier|].
  assert (Hgen : forall a',
    render_html env (new_row env cn ce d a' s) "invoice.html"
    = render_html env (new_row env cn ce d a s) "invoice.html" ->
    generate_pdf env (new_row env cn ce d a' s) "invoice.html"
                 (inserted env cn ce d a' s)
    = (fst (generate_pdf env (new_row env cn ce d a s) "invoice.html" s),
       set_db (db s ++ [new_row env cn ce d a' s])
              (snd (generate_pdf env (new_row env cn ce d a s) "invoice.html" s)))).
  { intros a' R. unfold inserted. rewrite generate_pdf_set_db.
    now rewrite (generate_pdf_congr env _ _ _ s R eq_refl). }
  pose proof (Hgen a eq_refl) as Ga.
  destruct (sqlite_real_cases a) as (Hkeep & Hnan & Hzero).
  destruct (generate_pdf env (new_row env cn ce d a s) "invoice.html" s)
    as [[f|e] t] eqn:G0; cbn [fst snd] in Ga, Hgen.
  - destruct (create_invoice_sent _ _ _ _ _ _ _ _ Ga) as [l Hc].
    pose proof Hc as Hl. unfold create_invoice in Hl.
    rewrite create_invoice_with_eq, Ga in Hl. cbv zeta in Hl.
    rewrite send_email_simulation_eq in Hl.
    unfold s1. rewrite Hc. cbn [snd db fs log session].
    eexists. split; [reflexivity|].
    split; [|split; [exact Hkeep|split; [exact Hnan|split; [exact Hzero|]]]].
    + apply query_first_app_new; [apply next_rowid_fresh|reflexivity].
    + intros a' R. split; [apply redirect_any_notifier|].
      unfold create_invoice.
      rewrite create_invoice_with_eq, (Hgen a' R). cbv zeta.
      rewrite send_email_simulation_eq. cbn [snd db fs log session set_db].
      pose proof (f_equal (fun p => log (snd p)) Hl) as Hlog.
      cbn [snd log set_db] in Hlog. rewrite <- Hlog.
      repeat split; reflexivity.
  - unfold s1, create_invoice.
    rewrite (create_invoice_failed _ _ _ _ _ _ _ _ _ Ga).
    cbn [snd handled db fs log session set_db].
    eexists. split; [reflexivity|].
    split; [|split; [exact Hkeep|split; [exact Hnan|split; [exact Hzero|]]]].
    + apply query_first_app_new; [apply next_rowid_fresh|reflexivity].
    + intros a' R. split; [apply redirect_any_notifier|].
      rewrite (create_invoice_failed _ _ _ _ _ _ _ _ _ (Hgen a' R)).
      cbn [snd handled db fs log session set_db].
      repeat split; reflexivity.
Qed.

(** An instance: a negative amount and 125.50, both rendered and
    converted, on a template that does not show the amount. *)
Lemma C10_amount_not_validated_witness :
  exists r,
    query_first
      (db (snd (create_invoice env_ok "Acme" "billing@acme.test"
                               "Consulting" amount_neg st0))) 1 = Some r /\
    amount r = Some amount_neg /\ status r = "Sent" /\
    db (snd (create_invoice env_ok "Acme" "billing@acme.test"
                            "Consulting" amount_125_50 st0))
    = [set_amount (Some amount_125_50) r].
Proof.
  destruct (C10_amount_not_validated env_ok "Acme" "billing@acme.test"
              "Consulting" amount_neg st0)
    as (_ & r & _ & Hq & Ha & _ & _ & Hsame).
  exists r. split; [exact Hq|]. split; [|split].
  - apply Ha; discriminate.
  - vm_compute in Hq.
    apply (f_equal (fun x => match x with Some r => status r | None => "" end))
      in Hq.
    cbn [status] in Hq. now rewrite <- Hq.
  - destruct (Hsame amount_125_50) as (_ & Hdb & _).
    + vm_compute. reflexivity.
    + exact Hdb.
Defined.

(** * Further properties of the program *)

(** ** Row ids *)

Lemma max_rowid_dense_from (rows : list Invoice) (a : nat) :
  (1 <= a)%nat ->
  map id rows = map (fun k => Some (Z.of_nat k)) (seq a (length rows)) ->
  max_rowid rows = match rows with [] => 0 | _ => Z.of_nat (a + length rows) - 1 end.
Proof.
  revert a. induction rows as [|r rows IH]; intros a Ha E; [reflexivity|].
  cbn [length seq map] in E. injection E as Er E.
  cbn [max_rowid foldr]. fold (max_rowid rows).
  rewrite Er, (IH (S a)) by (lia || exact E). cbn [default from_option length].
  destruct rows; cbn [length]; unfold Datatypes.id; lia.
Qed.

Lemma next_rowid_dense (rows : list Invoice) :
  ids_dense rows -> next_rowid rows = Z.of_nat (length rows) + 1.
Proof.
  intros E. unfold next_rowid.
  rewrite (max_rowid_dense_from rows 1) by (lia || exact E).
  destruct rows; cbn [length]; lia.
Qed.

Lemma ids_dense_snoc (rows : list Invoice) (r : Invoice) :
  ids_dense rows -> id r = Some (next_rowid rows) -> ids_dense (rows ++ [r]).
Proof.
  intros E Hr. unfold ids_dense in *.
  rewrite length_app, map_app, seq_app, map_app, <- E. cbn [length seq map].
  rewrite Hr, next_rowid_dense by exact E. do 3 f_equal. lia.
Qed.

Lemma serve_db (q : request) (s : St) :
  db (snd (serve q s)) = db s \/
  exists env cn ce d a r,
    q = PostCreate env cn ce d a /\
    db (snd (serve q s)) = db s ++ [r] /\
    id r = Some (next_rowid (db s)) /\ created_at r = now env /\
    (r = set_status "Sent" (set_filename (Some (pdf_handle env))
                                         (new_row env cn ce d a s))
     \/ r = set_status "Error" (new_row env cn ce d a s)).
Proof.
  destruct q as [|env cn ce d a|i|]; cbn [serve].
  - left. now rewrite dashboard_eq.
  - right. exists env, cn, ce, d, a.
    destruct (create_invoice_db env cn ce d a s) as [E|E];
      eexists; (split; [reflexivity|]); (split; [exact E|]);
      repeat split; auto.
  - left. now rewrite download_invoice_state.
  - left. reflexivity.
Qed.

Lemma query_first_dense_from (rows : list Invoice) (a : nat) (i : Z) :
  map id rows = map (fun k => Some (Z.of_nat k)) (seq a (length rows)) ->
  Z.of_nat a <= i < Z.of_nat (a + length rows) ->
  exists r, query_first rows i = Some r /\ id r = Some i /\
            rows !! (Z.to_nat i - a)%nat = Some r.
Proof.
  revert a. induction rows as [|r rows IH]; intros a E Hi;
    [cbn [length] in Hi; lia|].
  cbn [length seq map] in E. injection E as Er E.
  unfold query_first. cbn [find].
  destruct (has_id i r) eqn:Hid.
  - apply has_id_true in Hid. exists r. split; [reflexivity|].
    split; [exact Hid|]. rewrite Er in Hid. injection Hid as <-.
    now replace (Z.to_nat (Z.of_nat a) - a)%nat with 0%nat by lia.
  - assert (Hne : i <> Z.of_nat a).
    { intros ->.
      assert (Ht : has_id (Z.of_nat a) r = true) by (now apply has_id_true).
      congruence. }
    destruct (IH (S a) E) as (r' & Hq & Hid' & Hl); [cbn [length] in Hi; lia|].
    exists r'. split; [exact Hq|]. split; [exact Hid'|].
    replace (Z.to_nat i - a)%nat with (S (Z.to_nat i - S a)) by lia.
    exact Hl.
Qed.

Lemma reachable_ids_dense (s : St) : reachable s -> ids_dense (db s).
Proof.
  induction 1 as [f l m|env cn ce d a s _ IH|s _ IH|i s _ IH].
  - reflexivity.
  - destruct (create_invoice_row env cn ce d a s) as (r & -> & Hr & _).
    now apply ids_dense_snoc.
  - now rewrite dashboard_eq.
  - now rewrite download_invoice_state.
Qed.

(** X1: in every state reached from an empty table the rows carry the ids
    1, 2, ..., n in the order of creation, the next creation gets n + 1,
    a lookup of an id between 1 and n finds the row created at that
    position, and a download of any other id is answered "Invoice not
    found". *)
Theorem X1_ids_count_creations (s : St) :
  reachable s ->
  let n := length (db s) in
  map id (db s) = map (fun k => Some (Z.of_nat k)) (seq 1 n) /\
  next_rowid (db s) = Z.of_nat n + 1 /\
  (forall i, 1 <= i <= Z.of_nat n ->
     exists r, query_first (db s) i = Some r /\ id r = Some i /\
               db s !! (Z.to_nat i - 1)%nat = Some r) /\
  (forall i, ~ 1 <= i <= Z.of_nat n ->
     download_invoice i s = (Raise (HTTPException 404 "Invoice not found"), s)).
Proof.
  intros Hr n. pose proof (reachable_ids_dense s Hr) as E.
  split; [exact E|]. split; [now apply next_rowid_dense|]. split.
  - intros i Hi. apply (query_first_dense_from (db s) 1 i E). fold n. lia.
  - intros i Hi. unfold download_invoice, bind, get.
    rewrite query_first_none; [reflexivity|].
    intros r Hin Hid. apply list_elem_of_In, list_elem_of_lookup in Hin as [k Hk].
    assert (Hm : map id (db s) !! k = Some (Some i))
      by (rewrite list_lookup_fmap, Hk; cbn; now rewrite Hid).
    rewrite E, list_lookup_fmap in Hm.
    apply fmap_Some in Hm as (j & Hj & Hij).
    apply lookup_seq in Hj as [-> Hlt]. injection Hij as ->. lia.
Qed.

(** An instance, on the table after a successful and a failed creation. *)
Lemma X1_ids_count_creations_witness :
  next_rowid
    (db (snd (create_invoice env_convert_err "B" "b@b.test" "Hosting"
                             amount_neg st_acme))) = 3.
Proof.
  refine (proj1 (proj2 (X1_ids_count_creations _ _))).
  apply reach_create. apply reach_create. apply reach_empty.
Defined.

(** ** Records over a sequence of requests *)

Lemma serve_all_cons (q : request) (qs : list request) (s : St) :
  serve_all (q :: qs) s = serve_all qs (snd (serve q s)).
Proof. reflexivity. Qed.

Lemma settled_sent (env : Env) (cn ce d : string) (a : float) (s : St) :
  settled (set_status "Sent" (set_filename (Some (pdf_handle env))
                                           (new_row env cn ce d a s))).
Proof. left. split; [reflexivity|]. now exists (urandom env). Qed.

Lemma settled_error (env : Env) (cn ce d : string) (a : float) (s : St) :
  settled (set_status "Error" (new_row env cn ce d a s)).
Proof. right. split; reflexivity. Qed.

(** What a sequence of requests does to the table: it appends one settled
    row for each creation. *)
Lemma serve_all_db (qs : list request) (s : St) :
  exists added,
    db (serve_all qs s) = db s ++ added /\
    Forall settled added /\
    length added = length (filter (fun q => negb (is_get q)) qs).
Proof.
  revert s. induction qs as [|q qs IH]; intros s.
  - exists []. cbn [serve_all foldl]. rewrite app_nil_r. repeat split.
    constructor.
  - rewrite serve_all_cons.
    destruct (IH (snd (serve q s))) as (added & E & Hs & Hl).
    destruct (serve_db q s) as [Hq|(env & cn & ce & d & a & r & -> & Hq & _ & _ & Hr)].
    + exists added. rewrite E, Hq. split; [reflexivity|]. split; [exact Hs|].
      destruct q as [|env cn ce d a|i|]; try exact Hl.
      exfalso. cbn [serve] in Hq.
      destruct (create_invoice_row env cn ce d a s) as (r & Er & _).
      rewrite Er in Hq. apply (f_equal (@length _)) in Hq.
      rewrite length_app in Hq. cbn [length] in Hq. lia.
    + exists (r :: added). rewrite E, Hq, <- app_assoc.
      split; [reflexivity|]. split.
      * constructor; [|exact Hs].
        destruct Hr as [->| ->]; [apply settled_sent|apply settled_error].
      * cbn [filter is_get negb length]. now rewrite Hl.
Qed.

Lemma query_first_app_found (rows more : list Invoice) (i : Z) (r : Invoice) :
  query_first rows i = Some r -> query_first (rows ++ more) i = Some r.
Proof.
  unfold query_first. induction rows as [|r0 rows IH]; cbn [app find];
    [discriminate|].
  now destruct (has_id i r0).
Qed.

(** X2: whatever requests are served, in whatever order and with
    whatever outcome, each creation adds exactly one record and leaves it
    either "Sent" with a file name of the form <uuid>.pdf or "Error"
    without a file name; no record is left "Processing" or "Draft" once
    its request has completed, and the other requests add none. *)
Theorem X2_every_creation_settles (qs : list request) (s : St) :
  exists added,
    db (serve_all qs s) = db s ++ added /\
    Forall settled added /\
    length added = length (filter (fun q => negb (is_get q)) qs) /\
    Forall (fun r => status r <> "Processing" /\ status r <> "Draft") added.
Proof.
  destruct (serve_all_db qs s) as (added & E & Hs & Hl).
  exists added. repeat split; try assumption.
  eapply Forall_impl; [exact Hs|].
  intros r [[Hr _]|[Hr _]]; rewrite Hr; split; discriminate.
Qed.

(** X3: no request modifies or deletes an existing record: a record found
    under an id, or at a position of the table, is found there unchanged
    after any sequence of requests. *)
Theorem X3_records_never_change (qs : list request) (s : St) (i : Z)
    (k : nat) (r r' : Invoice) :
  query_first (db s) i = Some r -> db s !! k = Some r' ->
  query_first (db (serve_all qs s)) i = Some r /\
  db (serve_all qs s) !! k = Some r'.
Proof.
  intros Hq Hk. destruct (serve_all_db qs s) as (added & -> & _).
  split; [now apply query_first_app_found|now apply lookup_app_l_Some].
Qed.

(** An instance: the Acme record after a failed creation and a listing. *)
Lemma X3_records_never_change_witness :
  exists r,
    query_first
      (db (serve_all [PostCreate env_convert_err "B" "b@b.test" "Hosting"
                                 amount_neg; GetDashboard] st_acme)) 1
    = Some r /\ status r = "Sent".
Proof.
  eexists. split.
  - refine (proj1 (X3_records_never_change _ st_acme 1 0 _ _ _ _)).
    + vm_compute. reflexivity.
    + vm_compute. reflexivity.
  - reflexivity.
Defined.

(** ** The shape of a handle *)

Section HandleShape.

Import Uuid.

Lemma hex_digit_in (n : Z) : In (hex_digit n) hex_digits.
Proof.
  unfold hex_digit. destruct (Z.to_nat n) as [|k]; [now left|].
  do 15 (destruct k as [|k]; [cbn; tauto|]).
  cbn. destruct k; tauto.
Qed.

Lemma hex_le_digits (w : nat) (x : Z) :
  Forall (fun c => In c hex_digits) (hex_le w x).
Proof.
  revert x. induction w as [|w IH]; intros x; cbn [hex_le]; constructor.
  - apply hex_digit_in.
  - apply IH.
Qed.

Lemma hex_le_lookup (w k : nat) (x : Z) :
  (k < w)%nat ->
  hex_le w x !! k = Some (hex_digit ((x / 16 ^ Z.of_nat k) mod 16)).
Proof.
  revert k x. induction w as [|w IH]; intros k x H; [lia|].
  destruct k as [|k]; cbn [hex_le lookup list_lookup].
  - change (16 ^ Z.of_nat 0) with 1. now rewrite Z.div_1_r.
  - rewrite IH by lia. rewrite Nat2Z.inj_succ, Z.pow_succ_r by lia.
    rewrite Z.div_div by lia. reflexivity.
Qed.

Lemma hex32_lookup (j : nat) (x : Z) :
  (j < 32)%nat ->
  hex32 x !! j = Some (hex_digit ((x / 16 ^ Z.of_nat (31 - j)) mod 16)).
Proof.
  intros H. unfold hex32. rewrite rev_alt. change (rev_append ?l []) with (reverse l).
  rewrite reverse_lookup by (rewrite hex_le_length; exact H).
  rewrite hex_le_length, hex_le_lookup by lia.
  now replace (32 - S j)%nat with (31 - j)%nat by lia.
Qed.

(** Where the digits go in the dashed form. *)
Lemma dashed_layout (h : list ascii) :
  length h = 32%nat ->
  length (dashed h) = 36%nat /\
  dashed h !! 0%nat = h !! 0%nat /\
  dashed h !! 8%nat = Some "-"%char /\
  dashed h !! 13%nat = Some "-"%char /\
  dashed h !! 14%nat = h !! 12%nat /\
  dashed h !! 18%nat = Some "-"%char /\
  dashed h !! 19%nat = h !! 16%nat /\
  dashed h !! 23%nat = Some "-"%char.
Proof.
  intros H.
  do 32 (destruct h as [|? h]; [discriminate H|]).
  destruct h; [|discriminate H]. repeat split.
Qed.

Lemma dashed_chars (h : list ascii) :
  Forall (fun c => In c hex_digits) h ->
  Forall (fun c => In c hex_digits \/ c = "-"%char) (dashed h).
Proof.
  intros H.
  assert (H' : Forall (fun c => In c hex_digits \/ c = "-"%char) h)
    by (eapply Forall_impl; [exact H|]; auto).
  unfold dashed.
  repeat (apply Forall_app; split; [|constructor; [now right|]]);
    auto using Forall_take, Forall_drop.
Qed.

(** Bits 76 to 79 of the identifier hold the version, 4. *)
Lemma uuid4_int_version (r : Z) : (uuid4_int r / 16 ^ 19) mod 16 = 4.
Proof.
  change (16 ^ 19) with (2 ^ 76). change 16 with (2 ^ 4).
  rewrite <- Z.shiftr_div_pow2, <- Z.land_ones by lia.
  unfold uuid4_int. cbv zeta.
  rewrite Z.shiftr_lor, Z.shiftr_land, Z.land_lor_distr_l, <- Z.land_assoc.
  change (Z.land (Z.lnot (Z.shiftl 61440 64) ≫ 76) (Z.ones 4)) with 0.
  now rewrite Z.land_0_r.
Qed.

(** Bits 62 and 63 hold the variant, binary 10. *)
Lemma uuid4_int_variant (r : Z) :
  8 <= (uuid4_int r / 16 ^ 15) mod 16 <= 11.
Proof.
  change (16 ^ 15) with (2 ^ 60). change 16 with (2 ^ 4).
  rewrite <- Z.shiftr_div_pow2, <- Z.land_ones by lia.
  unfold uuid4_int. cbv zeta.
  rewrite Z.shiftr_lor, !Z.shiftr_land, Z.shiftr_lor, Z.shiftr_land.
  rewrite !Z.land_lor_distr_l, <- !Z.land_assoc.
  change (Z.land (Z.shiftl 4 76 ≫ 60) (Z.ones 4)) with 0.
  change (Z.land (Z.shiftl 32768 48 ≫ 60)
            (Z.land (Z.lnot (Z.shiftl 61440 64) ≫ 60) (Z.ones 4))) with 8.
  change (Z.land (Z.lnot (Z.shiftl 49152 48) ≫ 60)
            (Z.land (Z.lnot (Z.shiftl 61440 64) ≫ 60) (Z.ones 4)))
    with (Z.ones 2).
  rewrite Z.lor_0_r, Z.land_ones by lia.
  pose proof (Z.mod_pos_bound (r ≫ 60) (2 ^ 2) ltac:(lia)) as Hb.
  assert (E : (r ≫ 60) mod 2 ^ 2 = 0 \/ (r ≫ 60) mod 2 ^ 2 = 1 \/
              (r ≫ 60) mod 2 ^ 2 = 2 \/ (r ≫ 60) mod 2 ^ 2 = 3) by lia.
  destruct E as [-> |[-> |[-> | ->]]];
    match goal with
    | |- context [Z.lor ?a ?b] =>
        let v := eval vm_compute in (Z.lor a b) in change (Z.lor a b) with v
    end; lia.
Qed.

Lemma uuid4_chars (r : Z) :
  list_ascii_of_string (uuid4 r) = dashed (hex32 (uuid4_int r)).
Proof. unfold uuid4, str_uuid. apply list_ascii_of_string_of_list_ascii. Qed.

Lemma hex32_length (x : Z) : length (hex32 x) = 32%nat.
Proof. unfold hex32. now rewrite length_rev, hex_le_length. Qed.

(** The first character of an identifier is a hexadecimal digit. *)
Lemma uuid4_head (r : Z) :
  exists c u, uuid4 r = String c u /\ In c hex_digits.
Proof.
  pose proof (uuid4_chars r) as E.
  destruct (dashed_layout _ (hex32_length (uuid4_int r))) as (_ & H0 & _).
  rewrite hex32_lookup in H0 by lia. rewrite <- E in H0.
  destruct (uuid4 r) as [|c u]; [discriminate H0|].
  cbn [list_ascii_of_string lookup list_lookup] in H0.
  apply (inj Some) in H0. subst c. eexists _, _. split; [reflexivity|].
  apply hex_digit_in.
Qed.

Lemma os_path_join_uuid4 (r : Z) :
  os_path_join DATA_DIR (uuid4 r +:+ ".pdf") = "data/" +:+ uuid4 r +:+ ".pdf".
Proof.
  destruct (uuid4_head r) as (c & u & -> & Hc).
  unfold os_path_join, startswith.
  change (String c u +:+ ".pdf") with (String c (u +:+ ".pdf")).
  cbn [String.prefix].
  destruct (ascii_dec "/" c) as [<-|_]; [|reflexivity].
  exfalso. unfold hex_digits in Hc. cbn [list_ascii_of_string In] in Hc.
  intuition discriminate.
Qed.

End HandleShape.

(** X4: the file name [generate_pdf] returns has 40 characters: the
    36 of a UUID (lower-case hexadecimal digits, with dashes at positions
    8, 13, 18 and 23, the version digit 4 at position 14 and a variant
    digit 8, 9, a or b at position 19) followed by ".pdf"; joined to the
    data directory it gives data/<uuid>.pdf. *)
Theorem X4_handle_shape (env : Env) (inv : Invoice) (tn : string) (s : St)
    (f : string) :
  fst (generate_pdf env inv tn s) = Ok f ->
  exists u,
    f = u +:+ ".pdf" /\
    os_path_join DATA_DIR f = "data/" +:+ u +:+ ".pdf" /\
    let cs := list_ascii_of_string u in
    length cs = 36%nat /\
    Forall (fun c => In c Uuid.hex_digits \/ c = "-"%char) cs /\
    cs !! 8%nat = Some "-"%char /\ cs !! 13%nat = Some "-"%char /\
    cs !! 18%nat = Some "-"%char /\ cs !! 23%nat = Some "-"%char /\
    cs !! 14%nat = Some "4"%char /\
    (exists v, cs !! 19%nat = Some v /\ In v (list_ascii_of_string "89ab")).
Proof.
  intros H.
  destruct (generate_pdf env inv tn s) as [r s2] eqn:G. cbn [fst] in H. subst r.
  destruct (generate_pdf_handle _ _ _ _ _ _ G) as [-> _].
  unfold pdf_handle.
  exists (Uuid.uuid4 (urandom env)). split; [reflexivity|].
  split; [exact (os_path_join_uuid4 (urandom env))|]. cbv zeta.
  rewrite uuid4_chars.
  destruct (dashed_layout _ (hex32_length (Uuid.uuid4_int (urandom env))))
    as (Hl & _ & H8 & H13 & H14 & H18 & H19 & H23).
  split; [exact Hl|]. split.
  { apply dashed_chars. unfold Uuid.hex32. apply Forall_rev, hex_le_digits. }
  repeat (split; [assumption|]). split.
  - rewrite H14, hex32_lookup by lia.
    change (Z.of_nat (31 - 12)) with 19. now rewrite uuid4_int_version.
  - rewrite H19, hex32_lookup by lia. change (Z.of_nat (31 - 16)) with 15.
    pose proof (uuid4_int_variant (urandom env)) as Hv.
    eexists. split; [reflexivity|].
    assert (E : (Uuid.uuid4_int (urandom env) / 16 ^ 15) mod 16 = 8 \/
                (Uuid.uuid4_int (urandom env) / 16 ^ 15) mod 16 = 9 \/
                (Uuid.uuid4_int (urandom env) / 16 ^ 15) mod 16 = 10 \/
                (Uuid.uuid4_int (urandom env) / 16 ^ 15) mod 16 = 11) by lia.
    destruct E as [-> |[-> |[-> | ->]]];
      unfold Uuid.hex_digit; cbn [Z.to_nat Pos.to_nat Pos.iter_op Init.Nat.add
                                    nth Uuid.hex_digits list_ascii_of_string In];
      tauto.
Qed.

(** An instance, on the handle of the Acme invoice. *)
Lemma X4_handle_shape_witness :
  exists u,
    "00000000-0000-4000-8000-000000000005.pdf" = u +:+ ".pdf" /\
    os_path_join DATA_DIR "00000000-0000-4000-8000-000000000005.pdf"
    = "data/" +:+ u +:+ ".pdf" /\
    list_ascii_of_string u !! 14%nat = Some "4"%char.
Proof.
  destruct (X4_handle_shape env_ok
              (new_row env_ok "Acme" "billing@acme.test" "Consulting"
                       amount_125_50 st0)
              "invoice.html" st0 "00000000-0000-4000-8000-000000000005.pdf")
    as (u & Hf & Hj & _ & _ & _ & _ & _ & _ & Hv & _).
  - vm_compute. reflexivity.
  - exists u. split; [exact Hf|]. split; [exact Hj|exact Hv].
Defined.

(** ** What a request reads and writes *)

(** Everything [create_invoice] does, outcome by outcome. *)
Lemma create_invoice_effects (env : Env) (cn ce d : string) (a : float)
    (s : St) :
  let s' := snd (create_invoice env cn ce d a s) in
  let o := new_row env cn ce d a s in
  let n := next_rowid (db s) in
  exists r added m,
    db s' = db s ++ [r] /\
    log s' = log s ++ added /\
    session s' = <["flash_message" := m]> (session s) /\
    (fs s' = fs s \/
     exists html,
       render_html env o "invoice.html" = Ok html /\
       open_wb env (handle_path env) = None /\
       fs s' = <[handle_path env := written (CreatePDF env html)]> (fs s)) /\
    ((r = set_status "Sent" (set_filename (Some (pdf_handle env)) o) /\
      m = "Invoice successfully created and sent to " +:+ ce /\
      added = email_records ce n cn (pdf_handle env) /\
      exists html,
        render_html env o "invoice.html" = Ok html /\
        fs s' = <[handle_path env := written (CreatePDF env html)]> (fs s))
     \/
     (r = set_status "Error" o /\
      m = "Error generating invoice. Please check logs." /\
      exists e,
        fst (generate_pdf env o "invoice.html" (inserted env cn ce d a s))
          = Raise e /\
        (added = [(ERROR, "Error processing invoice: " +:+ str_exn e)] \/
         added = [(ERROR, "PDF generation failed for invoice " +:+ pretty n);
                  (ERROR, "Error processing invoice: PDF generation failed")]))).
Proof.
  intros s' o n. subst s'. unfold create_invoice.
  rewrite create_invoice_with_eq. fold o.
  destruct (generate_pdf_cases env o "invoice.html" (inserted env cn ce d a s))
    as [(e & R & E)|[(h & e & R & O & E)|(h & R & O & [(e & P & E)|[(x & P & Hx & E)|(P & E)]])]];
    rewrite E; cbv zeta; try rewrite send_email_simulation_eq;
    cbn [fst snd handled db fs log session set_fs set_log set_db inserted];
    eexists _, _, _; (split; [reflexivity|]).
  - split; [reflexivity|]. split; [reflexivity|]. split; [now left|].
    right. repeat split. exists e. split; [reflexivity|now left].
  - split; [reflexivity|]. split; [reflexivity|]. split; [now left|].
    right. repeat split. exists e. split; [reflexivity|now left].
  - split; [reflexivity|]. split; [reflexivity|].
    split; [right; exists h; repeat split; assumption|].
    right. repeat split. exists e. split; [reflexivity|now left].
  - split; [rewrite <- app_assoc; reflexivity|]. split; [reflexivity|].
    split; [right; exists h; repeat split; assumption|].
    right. repeat split. eexists. split; [reflexivity|now right].
  - split; [reflexivity|]. split; [reflexivity|].
    split; [right; exists h; repeat split; assumption|].
    left. repeat split. exists h. split; [assumption|reflexivity].
Qed.

(** The result of a download, read backwards. *)
Lemma download_invoice_ok (i : Z) (s s' : St) (resp : Response) :
  download_invoice i s = (Ok resp, s') ->
  exists r f,
    query_first (db s) i = Some r /\ filename r = Some f /\
    truthy (Some f) = true /\
    is_Some (fs s !! os_path_join DATA_DIR f) /\
    resp = FileResponse (os_path_join DATA_DIR f) "application/pdf"
                        ("Invoice_" +:+ pretty i +:+ ".pdf") /\
    s' = s.
Proof.
  unfold download_invoice, bind, get, raise, ret.
  destruct (query_first (db s) i) as [r|]; [|discriminate].
  destruct (filename r) as [f|] eqn:Hf; [|discriminate].
  destruct (truthy (Some f)) eqn:Ht; cbn [negb str_opt]; [|discriminate].
  destruct (bool_decide _) eqn:Hb; [|discriminate].
  apply bool_decide_eq_true in Hb.
  intros H. exists r, f.
  pose proof (f_equal fst H) as H1. pose proof (f_equal snd H) as H2.
  cbn [fst snd] in H1, H2.
  apply (f_equal (fun x => match x with Ok v => v | Raise _ => resp end)) in H1.
  cbn beta iota in H1. repeat split; auto.
Qed.

Lemma query_first_In (rows : list Invoice) (i : Z) (r : Invoice) :
  query_first rows i = Some r -> In r rows /\ id r = Some i.
Proof.
  intros H. apply find_some in H as [Hin Hid]. split; [exact Hin|].
  now apply has_id_true.
Qed.

(** A download looks at the table and at the files only. *)
Lemma download_invoice_reads (i : Z) (s1 s2 : St) :
  db s1 = db s2 -> fs s1 = fs s2 ->
  fst (download_invoice i s1) = fst (download_invoice i s2).
Proof.
  intros Hd Hf. unfold download_invoice, bind, get, raise, ret.
  rewrite Hd, Hf.
  destruct (query_first (db s2) i) as [r|]; [|reflexivity].
  destruct (negb (truthy (filename r))); [reflexivity|].
  now destruct (bool_decide _).
Qed.

(** X5: starting from an empty table, whatever requests were served, a
    download that succeeds serves a file of the data directory named by
    a UUID, data/<uuid>.pdf, as application/pdf under the name
    Invoice_<id>.pdf, and changes nothing; no request makes a download
    reach a path outside the data directory. *)
Theorem X5_download_stays_in_data_dir (qs : list request) (s s' : St) (i : Z)
    (resp : Response) :
  db s = [] ->
  download_invoice i (serve_all qs s) = (Ok resp, s') ->
  exists draw body,
    resp = FileResponse ("data/" +:+ Uuid.uuid4 draw +:+ ".pdf")
                        "application/pdf"
                        ("Invoice_" +:+ pretty i +:+ ".pdf") /\
    response_body s' resp = Some body /\
    s' = serve_all qs s.
Proof.
  intros Hdb H.
  destruct (download_invoice_ok _ _ _ _ H) as (r & f & Hq & Hf & _ & [body Hb] & -> & ->).
  destruct (serve_all_db qs s) as (added & E & Hs & _).
  rewrite Hdb in E. cbn [app] in E.
  apply query_first_In in Hq as [Hin _]. rewrite E in Hin.
  rewrite List.Forall_forall in Hs.
  destruct (Hs r Hin) as [[_ [draw Hd]]|[_ Hn]]; [|congruence].
  rewrite Hf in Hd. apply (inj Some) in Hd. subst f.
  rewrite os_path_join_uuid4 in *. exists draw, body. repeat split. exact Hb.
Qed.

(** An instance, on the download of the Acme invoice. *)
Lemma X5_download_stays_in_data_dir_witness :
  exists draw body,
    FileResponse "data/00000000-0000-4000-8000-000000000005.pdf"
                 "application/pdf" "Invoice_1.pdf"
    = FileResponse ("data/" +:+ Uuid.uuid4 draw +:+ ".pdf") "application/pdf"
                   ("Invoice_" +:+ pretty 1 +:+ ".pdf") /\
    response_body st_acme
      (FileResponse "data/00000000-0000-4000-8000-000000000005.pdf"
                    "application/pdf" "Invoice_1.pdf") = Some body.
Proof.
  destruct (X5_download_stays_in_data_dir
              [PostCreate env_ok "Acme" "billing@acme.test" "Consulting"
                          amount_125_50]
              st0 st_acme 1
              (FileResponse "data/00000000-0000-4000-8000-000000000005.pdf"
                            "application/pdf" "Invoice_1.pdf"))
    as (draw & body & Hr & Hb & _).
  - reflexivity.
  - vm_compute. reflexivity.
  - exists draw, body. split; [exact Hr|exact Hb].
Defined.

Lemma serve_get (q : request) (s : St) :
  is_get q = true ->
  db (snd (serve q s)) = db s /\ fs (snd (serve q s)) = fs s /\
  log (snd (serve q s)) = log s /\
  (forall k, k <> "flash_message" ->
             session (snd (serve q s)) !! k = session s !! k) /\
  (session s !! "flash_message" = None ->
   session (snd (serve q s)) !! "flash_message" = None).
Proof.
  destruct q as [|env cn ce d a|i|]; cbn [is_get serve]; intros H;
    try discriminate H.
  - rewrite dashboard_eq. cbn [snd db fs log session set_session].
    repeat split; [|intros _; apply lookup_delete_eq].
    intros k Hk. now apply lookup_delete_ne.
  - rewrite download_invoice_state. repeat split; auto.
  - repeat split; auto.
Qed.

(** X6: the GET requests (listing, download, health check) write nothing
    but the pending message: after any sequence of them the table, the
    files and the log are the same, every other session key is
    untouched, and a download gives the same response and the same
    bytes as before. *)
Theorem X6_get_requests_are_safe (qs : list request) (s : St) :
  forallb is_get qs = true ->
  let s' := serve_all qs s in
  db s' = db s /\ fs s' = fs s /\ log s' = log s /\
  (forall k, k <> "flash_message" -> session s' !! k = session s !! k) /\
  (forall i, fst (download_invoice i s') = fst (download_invoice i s)) /\
  (forall resp, response_body s' resp = response_body s resp).
Proof.
  intros Hq s'.
  assert (H : db s' = db s /\ fs s' = fs s /\ log s' = log s /\
              forall k, k <> "flash_message" -> session s' !! k = session s !! k).
  { subst s'. revert s. induction qs as [|q qs IH]; intros s;
      [repeat split|].
    cbn [forallb] in Hq. apply andb_prop in Hq as [Hq1 Hq2].
    rewrite serve_all_cons.
    destruct (IH Hq2 (snd (serve q s))) as (E1 & E2 & E3 & E4).
    destruct (serve_get q s Hq1) as (F1 & F2 & F3 & F4 & _).
    rewrite E1, E2, E3. repeat split; try assumption.
    intros k Hk. now rewrite E4, F4. }
  destruct H as (E1 & E2 & E3 & E4). repeat split; try assumption.
  - intros i. now apply download_invoice_reads.
  - intros resp. unfold response_body. now rewrite E2.
Qed.

(** An instance: two downloads of the Acme invoice, a listing in between. *)
Lemma X6_get_requests_are_safe_witness :
  fst (download_invoice 1
         (serve_all [GetDownload 1; GetDashboard; GetHealth] st_acme))
  = fst (download_invoice 1 st_acme).
Proof.
  refine (proj1 (proj2 (proj2 (proj2 (proj2
    (X6_get_requests_are_safe [GetDownload 1; GetDashboard; GetHealth]
       st_acme _))))) 1).
  reflexivity.
Defined.

(** ** A creation and the rest of the state *)

(** The files after a creation, by how far [generate_pdf] got. *)
Lemma create_invoice_fs (env : Env) (cn ce d : string) (a : float) (s : St) :
  let s' := snd (create_invoice env cn ce d a s) in
  let o := new_row env cn ce d a s in
  (forall e, render_html env o "invoice.html" = Raise e -> fs s' = fs s) /\
  (forall e, open_wb env (handle_path env) = Some e -> fs s' = fs s) /\
  (forall html, render_html env o "invoice.html" = Ok html ->
     open_wb env (handle_path env) = None ->
     fs s' = <[handle_path env := written (CreatePDF env html)]> (fs s)).
Proof.
  intros s' o.
  destruct (create_invoice_effects env cn ce d a s)
    as (r & added & m & _ & _ & _ & Hfs & _).
  fold s' o in Hfs.
  destruct Hfs as [Hfs|(html & R & O & Hfs)].
  - assert (Hsame : fs s' = fs s) by exact Hfs. clear Hfs.
    subst s'. unfold create_invoice in *.
    rewrite create_invoice_with_eq in *. fold o in Hsame |- *.
    destruct (generate_pdf_cases env o "invoice.html" (inserted env cn ce d a s))
      as [(e & R & E)|[(h & e & R & O & E)|(h & R & O & [(e & P & E)|[(x & P & Hx & E)|(P & E)]])]];
      rewrite E in Hsame |- *; cbv zeta in Hsame |- *;
      try rewrite send_email_simulation_eq in Hsame |- *;
      cbn [fst snd handled db fs log session set_fs set_log set_db inserted]
        in Hsame |- *;
      repeat split; intros; congruence.
  - repeat split; intros; congruence.
Qed.

(** What a creation leaves alone in the data directory and the table. *)
Lemma create_invoice_frame (env : Env) (cn ce d : string) (a : float)
    (s : St) :
  let s' := snd (create_invoice env cn ce d a s) in
  (forall p, p <> handle_path env -> fs s' !! p = fs s !! p) /\
  (forall p, is_Some (fs s !! p) -> is_Some (fs s' !! p)) /\
  (exists r, db s' = db s ++ [r]).
Proof.
  intros s'.
  destruct (create_invoice_effects env cn ce d a s)
    as (r & added & m & Hdb & _ & _ & Hfs & _).
  fold s' in Hdb, Hfs.
  split; [|split].
  - intros p Hp. destruct Hfs as [->|(html & _ & _ & ->)]; [reflexivity|].
    now apply lookup_insert_ne.
  - intros p Hp. destruct Hfs as [->|(html & _ & _ & ->)]; [exact Hp|].
    destruct (decide (handle_path env = p)) as [<-|Hne].
    + rewrite lookup_insert_eq. eauto.
    + now rewrite lookup_insert_ne.
  - now exists r.
Qed.

(** X7: a creation writes one path at most, the one of its handle: every
    other file is as it was, no file is removed, every session key but
    the message is untouched, exactly one record is appended, and the
    log only grows. *)
Theorem X7_create_writes_one_path (env : Env) (cn ce d : string) (a : float)
    (s : St) :
  let s' := snd (create_invoice env cn ce d a s) in
  (forall p, p <> handle_path env -> fs s' !! p = fs s !! p) /\
  (forall p, is_Some (fs s !! p) -> is_Some (fs s' !! p)) /\
  (forall k, k <> "flash_message" -> session s' !! k = session s !! k) /\
  (exists r, db s' = db s ++ [r]) /\
  (exists added, log s' = log s ++ added /\ added <> []).
Proof.
  intros s'.
  destruct (create_invoice_effects env cn ce d a s)
    as (r & added & m & Hdb & Hlog & Hse & Hfs & Hout).
  fold s' in Hdb, Hlog, Hse, Hfs, Hout.
  split; [|split; [|split; [|split]]].
  - intros p Hp. destruct Hfs as [->|(html & _ & _ & ->)]; [reflexivity|].
    now apply lookup_insert_ne.
  - intros p Hp. destruct Hfs as [->|(html & _ & _ & ->)]; [exact Hp|].
    destruct (decide (handle_path env = p)) as [<-|Hne].
    + rewrite lookup_insert_eq. eauto.
    + now rewrite lookup_insert_ne.
  - intros k Hk. rewrite Hse. now apply lookup_insert_ne.
  - now exists r.
  - exists added. split; [exact Hlog|].
    destruct Hout as [(_ & _ & -> & _)|(_ & _ & e & _ & [->| ->])];
      discriminate.
Qed.

(** X8: a download that succeeded before a creation succeeds after it
    with the same response.  Its bytes are the same when the new handle
    differs from the file it serves; when the handles collide and the
    new file was opened, the earlier invoice now serves what the
    converter wrote for the new one, even if that conversion failed. *)
Theorem X8_earlier_download_after_creation (env : Env) (cn ce d : string)
    (a : float) (s : St) (i : Z) (p mt dn : string) :
  fst (download_invoice i s) = Ok (FileResponse p mt dn) ->
  let s' := snd (create_invoice env cn ce d a s) in
  fst (download_invoice i s') = Ok (FileResponse p mt dn) /\
  (p <> handle_path env ->
   response_body s' (FileResponse p mt dn)
   = response_body s (FileResponse p mt dn)) /\
  (p = handle_path env ->
   forall html,
     render_html env (new_row env cn ce d a s) "invoice.html" = Ok html ->
     open_wb env (handle_path env) = None ->
     response_body s' (FileResponse p mt dn)
     = Some (written (CreatePDF env html))).
Proof.
  intros H s'.
  destruct (download_invoice i s) as [res s1] eqn:D. cbn [fst] in H. subst res.
  destruct (download_invoice_ok _ _ _ _ D) as (r0 & f & Hq & Hf & Ht & Hb & Hresp & _).
  apply (f_equal (fun x => match x with FileResponse q _ _ => q | _ => p end))
    in Hresp as Hp. cbn beta iota in Hp.
  destruct (create_invoice_frame env cn ce d a s) as (Hother & Hkeep & [r Hdb]).
  fold s' in Hother, Hkeep, Hdb.
  split; [|split].
  - destruct (Hkeep _ Hb) as [body Hbody].
    rewrite Hresp.
    rewrite (download_invoice_found i s' r0 f body); [reflexivity| |exact Hf|exact Ht|exact Hbody].
    rewrite Hdb. now apply query_first_app_found.
  - intros Hne. cbn [response_body]. now apply Hother.
  - intros -> html R O. cbn [response_body].
    pose proof (proj2 (proj2 (create_invoice_fs env cn ce d a s)) html R O)
      as Hfs.
    unfold s'. rewrite Hfs. apply lookup_insert_eq.
Qed.

(** An instance: after a failed creation whose handle collides with that
    of the Acme invoice, the Acme download serves the two bytes the
    failed conversion wrote. *)
Lemma X8_earlier_download_after_creation_witness :
  response_body
    (snd (create_invoice env_colliding_err "B" "b@b.test" "Hosting"
                         amount_neg st_acme))
    (FileResponse "data/00000000-0000-4000-8000-000000000005.pdf"
                  "application/pdf" "Invoice_1.pdf")
  = Some [x25; x50].
Proof.
  refine (proj2 (proj2 (X8_earlier_download_after_creation env_colliding_err
            "B" "b@b.test" "Hosting" amount_neg st_acme 1
            "data/00000000-0000-4000-8000-000000000005.pdf"
            "application/pdf" "Invoice_1.pdf" _)) _
            "<h1>Invoice for B</h1>" _ _).
  - vm_compute. reflexivity.
  - vm_compute. reflexivity.
  - vm_compute. reflexivity.
  - reflexivity.
Defined.

(** X9: the message the next listing delivers tells the outcome of the
    last creation, replacing any message still pending: it names the
    recipient when the record is "Sent" and is the fixed error notice when
    the record is "Error". *)
Theorem X9_message_tells_outcome (env : Env) (cn ce d : string) (a : float)
    (s : St) :
  let s' := snd (create_invoice env cn ce d a s) in
  exists r m,
    query_first (db s') (next_rowid (db s)) = Some r /\
    fst (dashboard s')
    = Ok (TemplateResponse "dashboard.html"
            (order_by_created_at_desc (db s')) (Some m)) /\
    ((status r = "Sent" /\
      m = "Invoice successfully created and sent to " +:+ ce) \/
     (status r = "Error" /\
      m = "Error generating invoice. Please check logs.")).
Proof.
  intros s'.
  destruct (create_invoice_effects env cn ce d a s)
    as (r & added & m & Hdb & _ & Hse & _ & Hout).
  fold s' in Hdb, Hse, Hout.
  exists r, m. split; [|split].
  - rewrite Hdb. apply query_first_app_new; [apply next_rowid_fresh|].
    destruct Hout as [(-> & _)|(-> & _)]; reflexivity.
  - rewrite dashboard_eq. cbn [fst]. now rewrite Hse, lookup_insert_eq.
  - destruct Hout as [(-> & -> & _)|(-> & -> & _)]; [left|right];
      split; reflexivity.
Qed.

(** X10: the simulated email is logged exactly for the creations that end
    "Sent": six INFO records naming the recipient, the id the table
    assigned, the client and the stored file name.  A creation that ends
    "Error" logs ERROR records only, the last one "Error processing
    invoice: ..." *)
Theorem X10_email_logged_when_sent (env : Env) (cn ce d : string) (a : float)
    (s : St) :
  let s' := snd (create_invoice env cn ce d a s) in
  let n := next_rowid (db s) in
  exists r added,
    query_first (db s') n = Some r /\
    log s' = log s ++ added /\
    ((status r = "Sent" /\
      exists f, filename r = Some f /\ added = email_records ce n cn f) \/
     (status r = "Error" /\
      Forall (fun e => fst e = ERROR) added /\
      exists msg,
        last added = Some (ERROR, "Error processing invoice: " +:+ msg))).
Proof.
  intros s' n.
  destruct (create_invoice_effects env cn ce d a s)
    as (r & added & m & Hdb & Hlog & _ & _ & Hout).
  fold s' n in Hdb, Hlog, Hout.
  exists r, added. split; [|split; [exact Hlog|]].
  - rewrite Hdb. apply query_first_app_new; [apply next_rowid_fresh|].
    destruct Hout as [(-> & _)|(-> & _)]; reflexivity.
  - destruct Hout as [(-> & _ & -> & _)|(-> & _ & e & _ & [->| ->])].
    + left. split; [reflexivity|]. eexists. split; reflexivity.
    + right. split; [reflexivity|]. split; [repeat constructor|].
      eexists. reflexivity.
    + right. split; [reflexivity|]. split; [repeat constructor|].
      eexists. reflexivity.
Qed.

(** ** A creation and the listing *)

Lemma place_desc_under_newer (x y : Invoice) (l : list Invoice) :
  created_at y < created_at x ->
  place_desc y (x :: l) = x :: place_desc y l.
Proof.
  intros H. cbn [place_desc].
  destruct (Z.leb_spec (created_at x) (created_at y)); [lia|reflexivity].
Qed.

Lemma order_by_snoc_newest (rows : list Invoice) (x : Invoice) :
  (forall y, In y rows -> created_at y < created_at x) ->
  order_by_created_at_desc (rows ++ [x]) = x :: order_by_created_at_desc rows.
Proof.
  intros H. unfold order_by_created_at_desc. rewrite foldr_app.
  cbn [foldr place_desc]. induction rows as [|y rows IH]; [reflexivity|].
  cbn [foldr]. rewrite IH by (intros z Hz; apply H; now right).
  apply place_desc_under_newer, H. now left.
Qed.

(** X11: every creation, a failed one included, adds exactly one entry to
    the listing, the record with the new id in its final status; the
    entries listed before are all still listed. *)
Theorem X11_creation_adds_one_entry (env : Env) (cn ce d : string) (a : float)
    (s : St) :
  let s' := snd (create_invoice env cn ce d a s) in
  exists r,
    id r = Some (next_rowid (db s)) /\
    (status r = "Sent" \/ status r = "Error") /\
    client_name r = cn /\ client_email r = ce /\ description r = d /\
    Permutation (order_by_created_at_desc (db s'))
                (r :: order_by_created_at_desc (db s)) /\
    fst (dashboard s')
    = Ok (TemplateResponse "dashboard.html" (order_by_created_at_desc (db s'))
                           (session s' !! "flash_message")).
Proof.
  intros s'.
  assert (Hperm : forall r, db s' = db s ++ [r] ->
            Permutation (order_by_created_at_desc (db s'))
                        (r :: order_by_created_at_desc (db s))).
  { intros r ->. rewrite !order_by_perm.
    now rewrite Permutation_app_comm. }
  destruct (create_invoice_db env cn ce d a s) as [E|E]; fold s' in E;
    eexists; (split; [|split; [|split; [|split; [|split; [|split]]]]]);
    try (apply Hperm; exact E); try reflexivity; cbn [status set_status];
    auto using dashboard_eq.
Qed.

(** X12: when the clock reads later than the timestamp of every stored
    invoice, the invoice just created heads the listing and the rest of
    the listing is as before. *)
Theorem X12_new_invoice_heads_listing (env : Env) (cn ce d : string)
    (a : float) (s : St) :
  (forall y, In y (db s) -> created_at y < now env) ->
  let s' := snd (create_invoice env cn ce d a s) in
  exists r,
    query_first (db s') (next_rowid (db s)) = Some r /\
    created_at r = now env /\
    order_by_created_at_desc (db s') = r :: order_by_created_at_desc (db s).
Proof.
  intros H s'.
  destruct (create_invoice_row env cn ce d a s) as (r & E & Hid & Ht & _).
  fold s' in E. exists r. split; [|split; [exact Ht|]].
  - rewrite E. apply query_first_app_new; [apply next_rowid_fresh|exact Hid].
  - rewrite E. apply order_by_snoc_newest. intros y Hy. rewrite Ht. now apply H.
Qed.

(** An instance: a creation at 2000 after the Acme invoice, created at 1000. *)
Lemma X12_new_invoice_heads_listing_witness :
  exists r,
    created_at r = 2000 /\
    order_by_created_at_desc
      (db (snd (create_invoice env_later "B" "b@b.test" "Hosting" amount_neg
                               st_acme)))
    = r :: order_by_created_at_desc (db st_acme).
Proof.
  destruct (X12_new_invoice_heads_listing env_later "B" "b@b.test" "Hosting"
              amount_neg st_acme) as (r & _ & Ht & Hl).
  - intros y Hy. vm_compute in Hy. destruct Hy as [<-|[]]. reflexivity.
  - exists r. split; [exact Ht|exact Hl].
Defined.

(** ** Stored artifacts over time *)

(** One request that avoids the served path keeps a successful download
    and its bytes. *)
Lemma download_kept_by_request (q : request) (s : St) (i : Z)
    (p mt dn : string) :
  avoids p q = true ->
  fst (download_invoice i s) = Ok (FileResponse p mt dn) ->
  fst (download_invoice i (snd (serve q s))) = Ok (FileResponse p mt dn) /\
  fs (snd (serve q s)) !! p = fs s !! p.
Proof.
  intros Hq H. destruct (is_get q) eqn:Hg.
  - destruct (serve_get q s Hg) as (E1 & E2 & _).
    split; [|now rewrite E2].
    now rewrite (download_invoice_reads i _ s E1 E2).
  - destruct q as [|env cn ce d a|j|]; try discriminate Hg.
    cbn [avoids] in Hq. apply bool_decide_eq_true in Hq. cbn [serve].
    destruct (download_invoice i s) as [res s1] eqn:D. cbn [fst] in H.
    subst res.
    destruct (download_invoice_ok _ _ _ _ D)
      as (r0 & f & Hq0 & Hf & Ht & Hb & Hresp & _).
    apply (f_equal (fun x => match x with FileResponse q _ _ => q | _ => p end))
      in Hresp as Hp. cbn beta iota in Hp.
    destruct (create_invoice_frame env cn ce d a s)
      as (Hother & Hkeep & [r Hdb]).
    destruct (Hkeep _ Hb) as [body Hbody].
    split.
    + rewrite Hresp.
      rewrite (download_invoice_found i _ r0 f body);
        [reflexivity| |exact Hf|exact Ht|exact Hbody].
      rewrite Hdb. now apply query_first_app_found.
    + apply Hother. congruence.
Qed.

(** X13: once an invoice can be downloaded, it can be after any sequence
    of requests, with the same response and the same bytes, as long as
    no later creation draws a handle that leads to the same path. *)
Theorem X13_artifact_kept (qs : list request) (s : St) (i : Z)
    (p mt dn : string) :
  forallb (avoids p) qs = true ->
  fst (download_invoice i s) = Ok (FileResponse p mt dn) ->
  fst (download_invoice i (serve_all qs s)) = Ok (FileResponse p mt dn) /\
  response_body (serve_all qs s) (FileResponse p mt dn)
  = response_body s (FileResponse p mt dn).
Proof.
  revert s. induction qs as [|q qs IH]; intros s Hq H; [now split|].
  cbn [forallb] in Hq. apply andb_prop in Hq as [Hq1 Hq2].
  rewrite serve_all_cons.
  destruct (download_kept_by_request q s i p mt dn Hq1 H) as [H1 H2].
  destruct (IH _ Hq2 H1) as [H3 H4]. split; [exact H3|].
  rewrite H4. cbn [response_body]. exact H2.
Qed.

(** An instance: the Acme download after a listing, a creation with
    another handle and a download of the new invoice. *)
Lemma X13_artifact_kept_witness :
  response_body
    (serve_all [GetDashboard;
                PostCreate env_later "B" "b@b.test" "Hosting" amount_neg;
                GetDownload 2]
               st_acme)
    (FileResponse "data/00000000-0000-4000-8000-000000000005.pdf"
                  "application/pdf" "Invoice_1.pdf")
  = Some sample_pdf.
Proof.
  refine (eq_trans (proj2 (X13_artifact_kept _ st_acme 1 _ _ _ _ _)) _).
  - vm_compute. reflexivity.
  - vm_compute. reflexivity.
  - vm_compute. reflexivity.
Defined.

(** X14: a download serves whatever path the stored file name joins to:
    for a record whose file name is an absolute path, the data directory
    is dropped and the file at that path is served. *)
Theorem X14_download_trusts_stored_name (i : Z) (s : St) (r : Invoice)
    (f : string) :
  query_first (db s) i = Some r ->
  filename r = Some (String "/" f) ->
  is_Some (fs s !! String "/" f) ->
  download_invoice i s
  = (Ok (FileResponse (String "/" f) "application/pdf"
                      ("Invoice_" +:+ pretty i +:+ ".pdf")), s) /\
  response_body s (FileResponse (String "/" f) "application/pdf"
                     ("Invoice_" +:+ pretty i +:+ ".pdf"))
  = fs s !! String "/" f.
Proof.
  intros Hq Hf [body Hb]. split; [|reflexivity].
  assert (Hj : os_path_join DATA_DIR (String "/" f) = String "/" f).
  { unfold os_path_join, startswith. cbn [String.prefix].
    destruct (ascii_dec "/" "/") as [_|Hne]; [|now destruct Hne].
    now destruct f. }
  rewrite <- Hj at 1.
  apply (download_invoice_found i s r (String "/" f) body Hq Hf);
    [reflexivity|now rewrite Hj].
Qed.

(** An instance, on a record that names /etc/passwd. *)
Lemma X14_download_trusts_stored_name_witness :
  fst (download_invoice 1 st_foreign)
  = Ok (FileResponse "/etc/passwd" "application/pdf" "Invoice_1.pdf").
Proof.
  refine (f_equal fst (proj1 (X14_download_trusts_stored_name 1 st_foreign
            _ "etc/passwd" _ _ _))).
  - vm_compute. reflexivity.
  - reflexivity.
  - vm_compute. eauto.
Defined.
